(** * The mock device agent and its test client

    A shallow embedding of
    [tests/integration/device_agent/mock_agent_server.py] and
    [tests/integration/device_agent/test_client.py]: the command recorder,
    the HTTP routes of the harness and the assertion helpers of the client,
    with the properties the specification states about them. *)

From Stdlib Require Import ZArith Ascii String DecimalString.
From stdpp Require Import base option list gmap strings.

Local Open Scope Z_scope.
Local Set Warnings "-register-all".

(** ** Python values

    The values that travel through the harness: request fields, recorded
    parameters and JSON response bodies.  A [str] is a [string] whose
    characters are the code points below 256; an [int] is unbounded. *)

(** A [float]: the dyadic rational [fsig * 2 ^ fexp], an infinity, or
    not-a-number. *)
Inductive float : Type :=
  | Finite (fsig fexp : Z)
  | Infinity (negative : bool)
  | NaN.

Inductive pyval : Type :=
  | VNone
  | VBool (b : bool)
  | VInt (z : Z)
  | VFloat (f : float)
  | VStr (s : string)
  | VList (l : list pyval)
  | VDict (d : gmap string pyval).

(** [float | None] and [int | None] fields. *)
Definition of_opt_float (o : option float) : pyval :=
  match o with Some f => VFloat f | None => VNone end.

Definition of_opt_int (o : option Z) : pyval :=
  match o with Some z => VInt z | None => VNone end.

(** Exceptions.  [HTTPException] is FastAPI's; every other exception is kept
    as its class name and the text [str(e)] gives. *)
Inductive exn : Type :=
  | HTTPException (status_code : Z) (detail : string)
  | Exception (cls : string) (msg : string).

Definition exn_str (e : exn) : string :=
  match e with
  | HTTPException c d => NilZero.string_of_int (Z.to_int c) +:+ ": " +:+ d
  | Exception _ msg => msg
  end.

(** The result of running a piece of Python: a value, or a raised exception. *)
Inductive outcome (A : Type) : Type :=
  | Return (a : A)
  | Raise (e : exn).
Arguments Return {A} a.
Arguments Raise {A} e.

#[global] Instance outcome_ret : MRet outcome := fun A a => Return a.

#[global] Instance outcome_bind : MBind outcome := fun A B k m =>
  match m with
  | Return a => k a
  | Raise e => Raise e
  end.

(** [assert cond, msg] *)
Definition py_assert (cond : bool) (msg : string) : outcome unit :=
  if cond then Return tt else Raise (Exception "AssertionError" msg).

Definition is_assertion_failure {A} (r : outcome A) : Prop :=
  exists msg, r = Raise (Exception "AssertionError" msg).

(** ** Strings *)

Module Str.

(** [str(n)] for an [int]. *)
Definition of_int (z : Z) : string := NilZero.string_of_int (Z.to_int z).

(** [c.isspace()] on the code points below 256. *)
Definition isspace (c : ascii) : bool :=
  let n := N_of_ascii c in
  ((9 <=? n) && (n <=? 13) || (28 <=? n) && (n <=? 32)
   || (n =? 133) || (n =? 160))%N.

(** [s.lstrip()], [s.rstrip()] and [s.strip()] with no argument. *)
Fixpoint lstrip (s : string) : string :=
  match s with
  | EmptyString => EmptyString
  | String c s' => if isspace c then lstrip s' else s
  end.

Fixpoint rstrip (s : string) : string :=
  match s with
  | EmptyString => EmptyString
  | String c s' =>
      match rstrip s' with
      | EmptyString => if isspace c then EmptyString else String c EmptyString
      | r => String c r
      end
  end.

Definition strip (s : string) : string := rstrip (lstrip s).

(** [s.split(sep)] for a separator of one character. *)
Fixpoint split (sep : ascii) (s : string) : list string :=
  match s with
  | EmptyString => [EmptyString]
  | String c s' =>
      if Ascii.eqb c sep then EmptyString :: split sep s'
      else match split sep s' with
           | w :: ws => String c w :: ws
           | [] => [String c EmptyString]
           end
  end.

(** [sep.join(l)] *)
Fixpoint join (sep : string) (l : list string) : string :=
  match l with
  | [] => EmptyString
  | [w] => w
  | w :: ws => w +:+ sep +:+ join sep ws
  end.

Definition backslash : ascii := ascii_of_N 92.
Definition squote : ascii := ascii_of_N 39.
Definition dquote : ascii := ascii_of_N 34.

Definition contains (c : ascii) (s : string) : bool :=
  existsb (Ascii.eqb c) (list_ascii_of_string s).

Definition hex_digit (n : N) : ascii :=
  if (n <? 10)%N then ascii_of_N (48 + n) else ascii_of_N (87 + n).

(** The escape [\xhh] of a code point. *)
Definition hex_escape (c : ascii) : string :=
  let n := N_of_ascii c in
  String backslash (String "x"
    (String (hex_digit (n / 16)) (String (hex_digit (n mod 16)) EmptyString))).

(** [c.isprintable()] for the code points from 128 to 255. *)
Definition isprintable_high (n : N) : bool :=
  ((160 <? n) && negb (n =? 173))%N.

Definition repr_char (quote c : ascii) : string :=
  let n := N_of_ascii c in
  if Ascii.eqb c quote || Ascii.eqb c backslash
  then String backslash (String c EmptyString)
  else if (n =? 9)%N then String backslash "t"
  else if (n =? 10)%N then String backslash "n"
  else if (n =? 13)%N then String backslash "r"
  else if ((n <? 32) || (n =? 127))%N then hex_escape c
  else if (n <? 127)%N then String c EmptyString
  else if isprintable_high n then String c EmptyString
  else hex_escape c.

Fixpoint repr_body (quote : ascii) (s : string) : string :=
  match s with
  | EmptyString => EmptyString
  | String c s' => repr_char quote c +:+ repr_body quote s'
  end.

(** [repr(s)] for a [str]: single quotes, unless the text has a single
    quote and no double quote. *)
Definition repr (s : string) : string :=
  let quote : ascii :=
    if contains squote s && negb (contains dquote s) then dquote else squote in
  String quote (repr_body quote s +:+ String quote EmptyString).

(** [repr(l)] for a list of [str], as an f-string prints it. *)
Definition repr_list (l : list string) : string :=
  "[" +:+ join ", " (map repr l) +:+ "]".

(** [n] in decimal, padded with zeros on the left to [width] digits. *)
Definition zero_pad (width : nat) (n : Z) : string :=
  let digits := of_int n in
  string_of_list_ascii
    (repeat "0"%char (width - String.length digits)) +:+ digits.

(** [s.rstrip(chars)]: the characters of [chars] are removed from the
    end of [s]. *)
Fixpoint rstrip_chars (chars : string) (s : string) : string :=
  match s with
  | EmptyString => EmptyString
  | String c s' =>
      match rstrip_chars chars s' with
      | EmptyString =>
          if contains c chars then EmptyString else String c EmptyString
      | r => String c r
      end
  end.

End Str.

(** ** Operators on values *)

Module Py.

(** [type(v).__name__] *)
Definition type_name (v : pyval) : string :=
  match v with
  | VNone => "NoneType"
  | VBool _ => "bool"
  | VInt _ => "int"
  | VFloat _ => "float"
  | VStr _ => "str"
  | VList _ => "list"
  | VDict _ => "dict"
  end.

(** [d[key]] for a [dict] and a string key. *)
Definition getitem (d : gmap string pyval) (key : string) : outcome pyval :=
  match d !! key with
  | Some v => Return v
  | None => Raise (Exception "KeyError" (Str.repr key))
  end.

(** [l[index]]: a negative index counts from the end. *)
Definition list_getitem {A} (l : list A) (index : Z) : outcome A :=
  let n := Z.of_nat (length l) in
  let i := if index <? 0 then index + n else index in
  if (i <? 0) || (n <=? i)
  then Raise (Exception "IndexError" "list index out of range")
  else match l !! Z.to_nat i with
       | Some a => Return a
       | None => Raise (Exception "IndexError" "list index out of range")
       end.

(** [v == s] for a string [s]; values of another type are unequal to it. *)
Definition eq_str (v : pyval) (s : string) : bool :=
  match v with
  | VStr t => String.eqb t s
  | _ => false
  end.

(** The numbers: [int], [bool] (an [int] subclass) and [float]. *)
Inductive number : Type :=
  | NInt (z : Z)
  | NBool (b : bool)
  | NFloat (f : float).

Definition as_number (v : pyval) : option number :=
  match v with
  | VInt z => Some (NInt z)
  | VBool b => Some (NBool b)
  | VFloat f => Some (NFloat f)
  | _ => None
  end.

(** [a <= n] and [n <= a] for an [int] [a]; Python compares an [int] with
    a [float] exactly, and nothing is below or above not-a-number. *)
Definition int_le_float (a : Z) (f : float) : bool :=
  match f with
  | Finite fsig fexp =>
      if 0 <=? fexp then a <=? fsig * 2 ^ fexp
      else a * 2 ^ (- fexp) <=? fsig
  | Infinity negative => negb negative
  | NaN => false
  end.

Definition float_le_int (f : float) (a : Z) : bool :=
  match f with
  | Finite fsig fexp =>
      if 0 <=? fexp then fsig * 2 ^ fexp <=? a
      else fsig <=? a * 2 ^ (- fexp)
  | Infinity negative => negative
  | NaN => false
  end.

Definition int_le (a : Z) (n : number) : bool :=
  match n with
  | NInt z => a <=? z
  | NBool b => a <=? (if b then 1 else 0)
  | NFloat f => int_le_float a f
  end.

Definition le_int (n : number) (a : Z) : bool :=
  match n with
  | NInt z => z <=? a
  | NBool b => (if b then 1 else 0) <=? a
  | NFloat f => float_le_int f a
  end.

Definition le_unsupported {A} (l r : string) : outcome A :=
  Raise (Exception "TypeError"
           ("'<=' not supported between instances of '" +:+ l
            +:+ "' and '" +:+ r +:+ "'")).

(** The chained comparison [lo <= v <= hi] with [int] bounds: the second
    comparison runs only when the first holds. *)
Definition between (lo : Z) (v : pyval) (hi : Z) : outcome bool :=
  match as_number v with
  | Some n => Return (int_le lo n && le_int n hi)
  | None => le_unsupported "int" (type_name v)
  end.

(** [f"{v}"] for a number.  [float_repr] is Python's text of a [float], its
    shortest decimal that reads back as the same [float]; it is not
    computed here.  The client formats a value only after comparing it with
    an [int], that is, only a number. *)
Definition format (float_repr : float -> string) (v : pyval) : string :=
  match as_number v with
  | Some (NInt z) => Str.of_int z
  | Some (NBool b) => if b then "True" else "False"
  | Some (NFloat f) => float_repr f
  | None => ""
  end.

(** [v[key]] for a string key: only a [dict] can be read by one (the
    messages are those of CPython 3.11 and later). *)
Definition subscript (v : pyval) (key : string) : outcome pyval :=
  match v with
  | VDict d => getitem d key
  | VList _ =>
      Raise (Exception "TypeError"
               "list indices must be integers or slices, not str")
  | VStr _ =>
      Raise (Exception "TypeError" "string indices must be integers, not 'str'")
  | _ =>
      Raise (Exception "TypeError"
               ("'" +:+ type_name v +:+ "' object is not subscriptable"))
  end.

(** [bool(v)]: the truth value of [v] in a condition. *)
Definition truthy (v : pyval) : bool :=
  match v with
  | VNone => false
  | VBool b => b
  | VInt z => negb (z =? 0)
  | VFloat (Finite fsig _) => negb (fsig =? 0)
  | VFloat _ => true
  | VStr s => negb (String.eqb s EmptyString)
  | VList l => match l with [] => false | _ => true end
  | VDict d => match map_to_list d with [] => false | _ => true end
  end.

(** [str(v)], as an f-string or the message of an [assert] prints it, for
    [None], a [bool], a number or a [str].  The text of a [list] or of a
    [dict] depends on the insertion order of the keys, which is not kept
    here: it is left empty, and the client never prints one. *)
Definition text (float_repr : float -> string) (v : pyval) : string :=
  match v with
  | VNone => "None"
  | VBool b => if b then "True" else "False"
  | VInt z => Str.of_int z
  | VFloat f => float_repr f
  | VStr s => s
  | VList _ | VDict _ => ""
  end.

End Py.

(** ** JSON *)

Module Json.

(** [json.dumps(v, allow_nan=False)] succeeds: the framework renders an
    answer this way, and the encoder refuses a [float] that is an infinity
    or not-a-number, wherever it stands in the value. *)
Fixpoint encodable (v : pyval) : bool :=
  match v with
  | VFloat (Finite _ _) => true
  | VFloat _ => false
  | VList l => forallb encodable l
  | VDict d => map_fold (fun _ item rest => encodable item && rest) true d
  | _ => true
  end.

(** A decoded JSON array of objects, as a list of dictionaries. *)
Definition objects (v : pyval) : list (gmap string pyval) :=
  match v with
  | VList l => omap (fun item => match item with
                                 | VDict d => Some d
                                 | _ => None
                                 end) l
  | _ => []
  end.

End Json.

(** ** [datetime] *)

Module Datetime.

(** A naive [datetime], as [datetime.now()] returns it. *)
Record t := mk {
  year : Z; month : Z; day : Z;
  hour : Z; minute : Z; second : Z; microsecond : Z
}.

(** [self.isoformat()]: the fraction is printed unless it is zero. *)
Definition isoformat (self : t) : string :=
  Str.zero_pad 4 (year self) +:+ "-" +:+ Str.zero_pad 2 (month self) +:+ "-"
  +:+ Str.zero_pad 2 (day self) +:+ "T" +:+ Str.zero_pad 2 (hour self) +:+ ":"
  +:+ Str.zero_pad 2 (minute self) +:+ ":" +:+ Str.zero_pad 2 (second self)
  +:+ (if microsecond self =? 0 then ""
       else "." +:+ Str.zero_pad 6 (microsecond self)).

End Datetime.

(** ** [CommandRecord] *)

Module CommandRecord.

(** Record of a single command received by the agent.  [timestamp] is
    filled by [datetime.now()] when the record is built. *)
Record t := mk {
  action : string;
  device_id : string;
  params : gmap string pyval;
  timestamp : Datetime.t
}.

Definition to_dict (self : t) : gmap string pyval :=
  list_to_map
    [("action", VStr (action self));
     ("device_id", VStr (device_id self));
     ("params", VDict (params self));
     ("timestamp", VStr (Datetime.isoformat (timestamp self)))].

End CommandRecord.

(** ** The state machine behind the harness

    The server imports [tests.integration.state_machine], a module outside
    the two files embedded here, and uses it only through the operations
    below, on an engine object of some type [E].  An engine object is
    truthy, as an instance of a plain class is; its methods return, and
    what they change in the engine is the engine they give back. *)

Module ScreenshotResult.
Record t := mk { base64_data : string; width : Z; height : Z }.
End ScreenshotResult.

Class StateMachine (E : Type) := {
  (** [load_test_case(path)]: the engine it builds, first of three results,
      or the exception it raises.  The route guards against a falsy engine
      after loading, so the result may be [None]. *)
  load_test_case : string -> outcome (option E);
  (** [sm.handle_tap(x, y)]: the engine after the tap. *)
  handle_tap : Z -> Z -> E -> E;
  (** [sm.handle_swipe(start_x, start_y, end_x, end_y)] *)
  handle_swipe : Z -> Z -> Z -> Z -> E -> E;
  (** [sm.get_current_screenshot()] *)
  get_current_screenshot : E -> ScreenshotResult.t;
  (** [sm.current_state.current_app] *)
  current_state_current_app : E -> string;
  (** [sm.current_state_id] *)
  current_state_id : E -> string;
  (** [sm.state_history] *)
  state_history : E -> list string;
  (** [list(sm.states.keys())] *)
  states_keys : E -> list string
}.

(** ** [MockAgentState] *)

Module MockAgentState.
Section WithStateMachine.
Context {E : Type} `{!StateMachine E}.

(** Global state for the mock agent.  [state_machine] holds the engine
    object, which its methods change in place: a call on it is modelled by
    storing the engine the call leaves. *)
Record t := mk {
  commands : list CommandRecord.t;
  state_machine : option E;
  scenario_path : option string
}.

(** [__init__] *)
Definition init : t := mk [] None None.

(** Record a command; [now] is the clock reading taken for the record. *)
Definition record (action device_id : string) (params : gmap string pyval)
    (now : Datetime.t) (self : t) : t :=
  mk (commands self ++ [CommandRecord.mk action device_id params now])
     (state_machine self) (scenario_path self).

(** Reset command history. *)
Definition reset (self : t) : t :=
  mk [] (state_machine self) (scenario_path self).

(** Load a test scenario (state machine).  The import of the loader is
    taken to succeed and [str(path)] is the path itself.  The path is stored
    first; the engine is assigned only when the loader returns. *)
Definition load_scenario (path : string) (self : t) : outcome unit * t :=
  let self := mk (commands self) (state_machine self) (Some path) in
  match load_test_case path with
  | Return sm => (Return tt, mk (commands self) sm (scenario_path self))
  | Raise e => (Raise e, self)
  end.

(** Get current screenshot from state machine or return placeholder. *)
Definition get_screenshot_data (self : t) : pyval :=
  match state_machine self with
  | Some sm =>
      let result := get_current_screenshot sm in
      VDict (list_to_map
        [("base64_data", VStr (ScreenshotResult.base64_data result));
         ("width", VInt (ScreenshotResult.width result));
         ("height", VInt (ScreenshotResult.height result));
         ("is_sensitive", VBool false)])
  | None =>
      VDict (list_to_map
        [("base64_data", VStr "");
         ("width", VInt 1080);
         ("height", VInt 2400);
         ("is_sensitive", VBool false)])
  end.

(** Get current app from state machine. *)
Definition get_current_app (self : t) : string :=
  match state_machine self with
  | Some sm => current_state_current_app sm
  | None => "com.mock.app"
  end.

(** The state after a method call on the engine, when there is one:
    [if state.state_machine: state.state_machine.m(...)]. *)
Definition on_state_machine (m : E -> E) (self : t) : t :=
  match state_machine self with
  | Some sm => mk (commands self) (Some (m sm)) (scenario_path self)
  | None => self
  end.

End WithStateMachine.
Arguments t E : clear implicits.
End MockAgentState.

(** ** Request models *)

Module TapRequest.
Record t := mk { x : Z; y : Z; delay : option float }.
(** The fields of the model, by name. *)
Definition fields (req : t) : list (string * pyval) :=
  [("x", VInt (x req)); ("y", VInt (y req)); ("delay", of_opt_float (delay req))].
End TapRequest.

Module SwipeRequest.
Record t := mk {
  start_x : Z; start_y : Z; end_x : Z; end_y : Z;
  duration_ms : option Z; delay : option float
}.
Definition fields (req : t) : list (string * pyval) :=
  [("start_x", VInt (start_x req)); ("start_y", VInt (start_y req));
   ("end_x", VInt (end_x req)); ("end_y", VInt (end_y req));
   ("duration_ms", of_opt_int (duration_ms req));
   ("delay", of_opt_float (delay req))].
End SwipeRequest.

Module LongPressRequest.
(** [duration_ms] is 3000 when the caller leaves it out. *)
Record t := mk { x : Z; y : Z; duration_ms : Z; delay : option float }.
Definition fields (req : t) : list (string * pyval) :=
  [("x", VInt (x req)); ("y", VInt (y req));
   ("duration_ms", VInt (duration_ms req));
   ("delay", of_opt_float (delay req))].
End LongPressRequest.

Module TypeTextRequest.
Record t := mk { text : string }.
Definition fields (req : t) : list (string * pyval) :=
  [("text", VStr (text req))].
End TypeTextRequest.

Module LaunchAppRequest.
Record t := mk { app_name : string; delay : option float }.
Definition fields (req : t) : list (string * pyval) :=
  [("app_name", VStr (app_name req)); ("delay", of_opt_float (delay req))].
End LaunchAppRequest.

Module ScreenshotRequest.
(** [timeout] is 10 when the caller leaves it out. *)
Record t := mk { timeout : Z }.
Definition fields (req : t) : list (string * pyval) :=
  [("timeout", VInt (timeout req))].
End ScreenshotRequest.

Module LoadScenarioRequest.
Record t := mk { scenario_path : string }.
End LoadScenarioRequest.

(** ** The routes of the app *)

Module Routes.
Section WithStateMachine.
Context {E : Type} `{!StateMachine E}.

Abbreviation State := (MockAgentState.t E).

Definition status_ok : pyval := VDict {[ "status" := VStr "ok" ]}.

(** List available mock devices. *)
Definition list_devices : pyval :=
  VList [VDict (list_to_map
    [("device_id", VStr "mock_device_001");
     ("status", VStr "online");
     ("model", VStr "MockPhone");
     ("platform", VStr "android");
     ("connection_type", VStr "mock")])].

(** *** Screenshot *)

Definition screenshot (device_id : string) (req : ScreenshotRequest.t)
    (now : Datetime.t) (state : State) : pyval * State :=
  let state :=
    MockAgentState.record "screenshot" device_id
      (list_to_map [("timeout", VInt (ScreenshotRequest.timeout req))])
      now state in
  (MockAgentState.get_screenshot_data state, state).

(** *** Input operations *)

Definition tap (device_id : string) (req : TapRequest.t)
    (now : Datetime.t) (state : State) : pyval * State :=
  let state :=
    MockAgentState.record "tap" device_id
      (list_to_map [("x", VInt (TapRequest.x req));
                    ("y", VInt (TapRequest.y req));
                    ("delay", of_opt_float (TapRequest.delay req))])
      now state in
  let state :=
    MockAgentState.on_state_machine
      (handle_tap (TapRequest.x req) (TapRequest.y req)) state in
  (status_ok, state).

Definition double_tap (device_id : string) (req : TapRequest.t)
    (now : Datetime.t) (state : State) : pyval * State :=
  let state :=
    MockAgentState.record "double_tap" device_id
      (list_to_map [("x", VInt (TapRequest.x req));
                    ("y", VInt (TapRequest.y req));
                    ("delay", of_opt_float (TapRequest.delay req))])
      now state in
  let state :=
    MockAgentState.on_state_machine
      (handle_tap (TapRequest.x req) (TapRequest.y req)) state in
  (status_ok, state).

Definition long_press (device_id : string) (req : LongPressRequest.t)
    (now : Datetime.t) (state : State) : pyval * State :=
  let state :=
    MockAgentState.record "long_press" device_id
      (list_to_map [("x", VInt (LongPressRequest.x req));
                    ("y", VInt (LongPressRequest.y req));
                    ("duration_ms", VInt (LongPressRequest.duration_ms req));
                    ("delay", of_opt_float (LongPressRequest.delay req))])
      now state in
  let state :=
    MockAgentState.on_state_machine
      (handle_tap (LongPressRequest.x req) (LongPressRequest.y req)) state in
  (status_ok, state).

Definition swipe (device_id : string) (req : SwipeRequest.t)
    (now : Datetime.t) (state : State) : pyval * State :=
  let state :=
    MockAgentState.record "swipe" device_id
      (list_to_map [("start_x", VInt (SwipeRequest.start_x req));
                    ("start_y", VInt (SwipeRequest.start_y req));
                    ("end_x", VInt (SwipeRequest.end_x req));
                    ("end_y", VInt (SwipeRequest.end_y req));
                    ("duration_ms", of_opt_int (SwipeRequest.duration_ms req));
                    ("delay", of_opt_float (SwipeRequest.delay req))])
      now state in
  let state :=
    MockAgentState.on_state_machine
      (handle_swipe (SwipeRequest.start_x req) (SwipeRequest.start_y req)
                    (SwipeRequest.end_x req) (SwipeRequest.end_y req)) state in
  (status_ok, state).

Definition type_text (device_id : string) (req : TypeTextRequest.t)
    (now : Datetime.t) (state : State) : pyval * State :=
  let state :=
    MockAgentState.record "type_text" device_id
      (list_to_map [("text", VStr (TypeTextRequest.text req))]) now state in
  (status_ok, state).

Definition clear_text (device_id : string)
    (now : Datetime.t) (state : State) : pyval * State :=
  let state := MockAgentState.record "clear_text" device_id ∅ now state in
  (status_ok, state).

(** *** Navigation *)

Definition back (device_id : string) (delay : option float)
    (now : Datetime.t) (state : State) : pyval * State :=
  let state :=
    MockAgentState.record "back" device_id
      (list_to_map [("delay", of_opt_float delay)]) now state in
  (status_ok, state).

Definition home (device_id : string) (delay : option float)
    (now : Datetime.t) (state : State) : pyval * State :=
  let state :=
    MockAgentState.record "home" device_id
      (list_to_map [("delay", of_opt_float delay)]) now state in
  (status_ok, state).

Definition launch_app (device_id : string) (req : LaunchAppRequest.t)
    (now : Datetime.t) (state : State) : pyval * State :=
  let state :=
    MockAgentState.record "launch_app" device_id
      (list_to_map [("app_name", VStr (LaunchAppRequest.app_name req));
                    ("delay", of_opt_float (LaunchAppRequest.delay req))])
      now state in
  (VDict (list_to_map [("status", VStr "ok"); ("success", VBool true)]), state).

(** *** State query *)

Definition current_app (device_id : string)
    (now : Datetime.t) (state : State) : pyval * State :=
  let state := MockAgentState.record "get_current_app" device_id ∅ now state in
  (VDict {[ "app_name" := VStr (MockAgentState.get_current_app state) ]}, state).

(** *** Keyboard *)

Definition detect_keyboard (device_id : string)
    (now : Datetime.t) (state : State) : pyval * State :=
  let state := MockAgentState.record "detect_keyboard" device_id ∅ now state in
  (VDict {[ "original_ime" := VStr "com.mock.keyboard" ]}, state).

Definition restore_keyboard (device_id : string) (ime : string)
    (now : Datetime.t) (state : State) : pyval * State :=
  let state :=
    MockAgentState.record "restore_keyboard" device_id
      (list_to_map [("ime", VStr ime)]) now state in
  (status_ok, state).

(** *** Test assertion APIs *)

(** Get all recorded commands for assertion. *)
Definition get_commands (state : State) : list (gmap string pyval) :=
  map CommandRecord.to_dict (MockAgentState.commands state).

(** Get simplified list of actions only: [{"action": cmd.action,
    **cmd.params}], where a parameter named [action] would win. *)
Definition get_command_actions (state : State) : list (gmap string pyval) :=
  map (fun cmd =>
         CommandRecord.params cmd
         ∪ {[ "action" := VStr (CommandRecord.action cmd) ]})
      (MockAgentState.commands state).

(** Reset command history. *)
Definition reset (state : State) : pyval * State :=
  let state := MockAgentState.reset state in
  (VDict (list_to_map
     [("status", VStr "reset"); ("commands_cleared", VBool true)]), state).

(** Load a test scenario (state machine). *)
Definition load_scenario (req : LoadScenarioRequest.t) (state : State)
    : outcome pyval * State :=
  match MockAgentState.load_scenario
          (LoadScenarioRequest.scenario_path req) state with
  | (Return _, state) =>
      (Return (VDict (list_to_map
         [("status", VStr "loaded");
          ("scenario", VStr (LoadScenarioRequest.scenario_path req));
          ("states",
           match MockAgentState.state_machine state with
           | Some sm => VList (map VStr (states_keys sm))
           | None => VList []
           end)])), state)
  | (Raise e, state) =>
      (Raise (HTTPException 400 ("Failed to load scenario: " +:+ exn_str e)),
       state)
  end.

(** Get current state machine state. *)
Definition get_state (state : State) : pyval :=
  match MockAgentState.state_machine state with
  | None =>
      VDict (list_to_map [("current_state", VNone); ("history", VList [])])
  | Some sm =>
      VDict (list_to_map
        [("current_state", VStr (current_state_id sm));
         ("history", VList (map VStr (state_history sm)))])
  end.

(** The expected action names of a query: comma-separated, each stripped. *)
Definition expected_actions (actions : string) : list string :=
  map Str.strip (Str.split "," actions).

(** The recorded action names. *)
Definition actual_actions (state : State) : list string :=
  map CommandRecord.action (MockAgentState.commands state).

(** Verify expected command sequence. *)
Definition expect_commands (actions : string) (state : State) : pyval :=
  let expected := expected_actions actions in
  let actual := actual_actions state in
  let matched := bool_decide (actual = expected) in
  VDict (list_to_map
    [("match", VBool matched);
     ("expected", VList (map VStr expected));
     ("actual", VList (map VStr actual));
     ("message",
      VStr (if matched then "Commands match!"
            else "Mismatch: expected " +:+ Str.repr_list expected
                 +:+ ", got " +:+ Str.repr_list actual))]).

End WithStateMachine.
End Routes.

(** ** The app: routing and responses *)

Module App.

Record Response := mk_response { status_code : Z; body : pyval }.

(** What the framework sends for the result of a route: the returned value
    as JSON with status 200, the status and detail of an [HTTPException],
    or an internal server error, in plain text, for any other exception,
    the [ValueError] of the JSON encoder on a value it refuses included. *)
Definition respond (r : outcome pyval) : Response :=
  match r with
  | Return v =>
      if Json.encodable v then mk_response 200 v
      else mk_response 500 (VStr "Internal Server Error")
  | Raise (HTTPException code detail) =>
      mk_response code (VDict {[ "detail" := VStr detail ]})
  | Raise (Exception _ _) => mk_response 500 (VStr "Internal Server Error")
  end.

(** [resp.json()] on the client side: the decoded body.  The one answer of
    the app whose body is not JSON is the internal server error, on which
    the decoder raises. *)
Definition json (resp : Response) : outcome pyval :=
  if status_code resp =? 500
  then Raise (Exception "JSONDecodeError"
                "Expecting value: line 1 column 1 (char 0)")
  else Return (body resp).

(** A call to one of the device-control routes [/device/{device_id}/...],
    with what the caller supplies besides the device id, after the
    framework has validated it against the request model. *)
Inductive DeviceCall : Type :=
  | Screenshot (req : ScreenshotRequest.t)
  | Tap (req : TapRequest.t)
  | DoubleTap (req : TapRequest.t)
  | LongPress (req : LongPressRequest.t)
  | Swipe (req : SwipeRequest.t)
  | TypeText (req : TypeTextRequest.t)
  | ClearText
  | Back (delay : option float)
  | Home (delay : option float)
  | LaunchApp (req : LaunchAppRequest.t)
  | CurrentApp
  | DetectKeyboard
  | RestoreKeyboard (ime : string).

(** The verb of a call: the last segment of the path of its route. *)
Definition verb (call : DeviceCall) : string :=
  match call with
  | Screenshot _ => "screenshot"
  | Tap _ => "tap"
  | DoubleTap _ => "double_tap"
  | LongPress _ => "long_press"
  | Swipe _ => "swipe"
  | TypeText _ => "type_text"
  | ClearText => "clear_text"
  | Back _ => "back"
  | Home _ => "home"
  | LaunchApp _ => "launch_app"
  | CurrentApp => "current_app"
  | DetectKeyboard => "detect_keyboard"
  | RestoreKeyboard _ => "restore_keyboard"
  end.

(** The parameters of a call: the fields of its request model and its query
    parameters. *)
Definition parameters (call : DeviceCall) : list (string * pyval) :=
  match call with
  | Screenshot req => ScreenshotRequest.fields req
  | Tap req | DoubleTap req => TapRequest.fields req
  | LongPress req => LongPressRequest.fields req
  | Swipe req => SwipeRequest.fields req
  | TypeText req => TypeTextRequest.fields req
  | LaunchApp req => LaunchAppRequest.fields req
  | Back delay | Home delay => [("delay", of_opt_float delay)]
  | RestoreKeyboard ime => [("ime", VStr ime)]
  | ClearText | CurrentApp | DetectKeyboard => []
  end.

Inductive Request : Type :=
  | GetDevices
  | Device (device_id : string) (call : DeviceCall)
  | GetTestCommands
  | GetTestCommandsActions
  | PostTestReset
  | PostTestLoadScenario (req : LoadScenarioRequest.t)
  | GetTestState
  | GetTestExpect (actions : string).

Section WithStateMachine.
Context {E : Type} `{!StateMachine E}.

Abbreviation State := (MockAgentState.t E).

Definition device (device_id : string) (call : DeviceCall)
    (now : Datetime.t) (state : State) : pyval * State :=
  match call with
  | Screenshot req => Routes.screenshot device_id req now state
  | Tap req => Routes.tap device_id req now state
  | DoubleTap req => Routes.double_tap device_id req now state
  | LongPress req => Routes.long_press device_id req now state
  | Swipe req => Routes.swipe device_id req now state
  | TypeText req => Routes.type_text device_id req now state
  | ClearText => Routes.clear_text device_id now state
  | Back delay => Routes.back device_id delay now state
  | Home delay => Routes.home device_id delay now state
  | LaunchApp req => Routes.launch_app device_id req now state
  | CurrentApp => Routes.current_app device_id now state
  | DetectKeyboard => Routes.detect_keyboard device_id now state
  | RestoreKeyboard ime => Routes.restore_keyboard device_id ime now state
  end.

(** One request served: the response and the state it leaves.  [now] is
    the clock reading a recorded command is stamped with. *)
Definition app (request : Request) (now : Datetime.t) (state : State)
    : Response * State :=
  match request with
  | GetDevices => (respond (Return Routes.list_devices), state)
  | Device device_id call =>
      let '(v, state) := device device_id call now state in
      (respond (Return v), state)
  | GetTestCommands =>
      (respond (Return (VList (map VDict (Routes.get_commands state)))), state)
  | GetTestCommandsActions =>
      (respond (Return (VList (map VDict (Routes.get_command_actions state)))),
       state)
  | PostTestReset =>
      let '(v, state) := Routes.reset state in (respond (Return v), state)
  | PostTestLoadScenario req =>
      let '(r, state) := Routes.load_scenario req state in (respond r, state)
  | GetTestState => (respond (Return (Routes.get_state state)), state)
  | GetTestExpect actions =>
      (respond (Return (Routes.expect_commands actions state)), state)
  end.

(** [lifespan] of [create_app(scenario_path)]: a scenario given at creation
    is loaded when the app starts. *)
Definition lifespan (scenario_path : option string) (state : State)
    : outcome unit * State :=
  match scenario_path with
  | Some path =>
      if String.eqb path "" then (Return tt, state)
      else MockAgentState.load_scenario path state
  | None => (Return tt, state)
  end.

(** The states the harness can be in: the module-level state, after a
    start-up and any number of requests. *)
Inductive reachable : State -> Prop :=
  | reachable_init : reachable MockAgentState.init
  | reachable_lifespan scenario_path state :
      reachable state -> reachable (lifespan scenario_path state).2
  | reachable_app request now state :
      reachable state -> reachable (app request now state).2.

(** The state after a run of requests, each with its clock reading. *)
Fixpoint run (requests : list (Request * Datetime.t)) (state : State) : State :=
  match requests with
  | [] => state
  | (request, now) :: rest => run rest (app request now state).2
  end.

End WithStateMachine.
End App.

(** ** [MockAgentTestClient]

    The client reaches the routes over HTTP; a JSON body arrives as the
    value the route returned.  [server] is the state of the harness the
    client talks to. *)

Module MockAgentTestClient.
Section WithStateMachine.
Context {E : Type} `{!StateMachine E}.

Variable float_repr : float -> string.

(** The message of the [HTTPStatusError] that httpx raises for a response;
    its wording is the library's and is not computed here. *)
Variable status_error_text : App.Response -> string.

Abbreviation State := (MockAgentState.t E).

(** Reset command history. *)
Definition reset (server : State) : unit * State :=
  (tt, (Routes.reset server).2).

(** Get all recorded commands: the decoded body of the answer to
    [GET /test/commands]. *)
Definition get_commands (server : State)
    : outcome (list (gmap string pyval)) :=
  let resp :=
    App.respond (Return (VList (map VDict (Routes.get_commands server)))) in
  decoded ← App.json resp;
  Return (Json.objects decoded).

(** Get simplified action list (action + params only): the decoded body
    of the answer to [GET /test/commands/actions]. *)
Definition get_actions (server : State)
    : outcome (list (gmap string pyval)) :=
  let resp :=
    App.respond
      (Return (VList (map VDict (Routes.get_command_actions server)))) in
  decoded ← App.json resp;
  Return (Json.objects decoded).

(** Get current state machine state: the decoded body of the answer to
    [GET /test/state], which is always the value of the route (it holds no
    float). *)
Definition get_state (server : State) : pyval :=
  Routes.get_state server.

(** Verify expected command sequence: the decoded body of the answer to
    [GET /test/expect], which is always the value of the route (it holds no
    float). *)
Definition expect (actions : list string) (server : State) : pyval :=
  Routes.expect_commands (Str.join "," actions) server.

(** [[a for a in actions if a["action"] == "tap"]] *)
Fixpoint taps_of (actions : list (gmap string pyval))
    : outcome (list (gmap string pyval)) :=
  match actions with
  | [] => Return []
  | a :: rest =>
      v ← Py.getitem a "action";
      taps ← taps_of rest;
      Return (if Py.eq_str v "tap" then a :: taps else taps)
  end.

(** Assert that a tap command was in the specified region. *)
Definition assert_tap_in_region (x1 y1 x2 y2 : Z) (index : Z)
    (server : State) : outcome unit :=
  actions ← get_actions server;
  taps ← taps_of actions;
  _ ← py_assert (index <? Z.of_nat (length taps))
        ("Expected at least " +:+ Str.of_int (index + 1)
         +:+ " tap(s), got " +:+ Str.of_int (Z.of_nat (length taps)));
  tap ← Py.list_getitem taps index;
  x ← Py.getitem tap "x";
  y ← Py.getitem tap "y";
  inx ← Py.between x1 x x2;
  _ ← py_assert inx
        ("Tap x=" +:+ Py.format float_repr x +:+ " not in range ["
         +:+ Str.of_int x1 +:+ ", " +:+ Str.of_int x2 +:+ "]");
  iny ← Py.between y1 y y2;
  py_assert iny
    ("Tap y=" +:+ Py.format float_repr y +:+ " not in range ["
     +:+ Str.of_int y1 +:+ ", " +:+ Str.of_int y2 +:+ "]").

(** [resp.raise_for_status()]: nothing for a status from 200 to 299, an
    [HTTPStatusError] for another one. *)
Definition raise_for_status (resp : App.Response) : outcome unit :=
  if (200 <=? App.status_code resp) && (App.status_code resp <=? 299)
  then Return tt
  else Raise (Exception "HTTPStatusError" (status_error_text resp)).

(** Load a test scenario. *)
Definition load_scenario (scenario_path : string) (server : State)
    : outcome pyval * State :=
  let '(r, server) :=
    Routes.load_scenario (LoadScenarioRequest.mk scenario_path) server in
  let resp := App.respond r in
  (_ ← raise_for_status resp; Return (App.body resp), server).

(** Assert that recorded actions match expected sequence. *)
Definition assert_actions (expected : list string) (server : State)
    : outcome unit :=
  let result := expect expected server in
  matched ← Py.subscript result "match";
  if Py.truthy matched then Return tt
  else
    message ← Py.subscript result "message";
    Raise (Exception "AssertionError" (Py.text float_repr message)).

(** Assert current state machine state. *)
Definition assert_state (expected_state : string) (server : State)
    : outcome unit :=
  let state := get_state server in
  current ← Py.subscript state "current_state";
  if Py.eq_str current expected_state then Return tt
  else
    current ← Py.subscript state "current_state";
    Raise (Exception "AssertionError"
             ("Expected state '" +:+ expected_state +:+ "', got '"
              +:+ Py.text float_repr current +:+ "'")).

End WithStateMachine.

(** The client object: [__init__] keeps the base URL without the slashes
    at its end, and hands it with the timeout to the HTTP client. *)
Record t := mk { base_url : string; timeout : float }.

Definition init (base_url : string) (timeout : float) : t :=
  mk (Str.rstrip_chars "/" base_url) timeout.

End MockAgentTestClient.

(** ** [scripts/adb_direct_demo.py] *)

Module AdbDirectDemo.

(** A device as [list_devices()] of [phone_agent.adb.connection] lists it;
    the script reads these two attributes. *)
Record DeviceInfo := mk_device { device_id : string; status : string }.

(** [pick_device_id(device_id)]: the given id when there is one (and it is
    not empty), else the id of the first listed device whose status is
    [device].  [devices] is what [list_devices()] returns; it is called
    only when no id is given. *)
Definition pick_device_id (devices : list DeviceInfo)
    (device_id : option string) : option string :=
  let first_online :=
    match find (fun d => String.eqb (status d) "device") devices with
    | Some d => Some (AdbDirectDemo.device_id d)
    | None => None
    end in
  match device_id with
  | Some d => if String.eqb d "" then first_online else Some d
  | None => first_online
  end.

End AdbDirectDemo.

(** ** The simulation engine of the specification *)

Module SimulationEngine.

(** Modelled from the spec: the kinds of transition of section 3; the code
    of the engine, [tests.integration.state_machine], is outside the files
    embedded here, as for every definition of this module. *)
Inductive Kind : Type := Tap | Swipe.

(** Modelled from the spec: a match region [(x1, y1, x2, y2)]. *)
Record Rect := mk_rect { x1 : Z; y1 : Z; x2 : Z; y2 : Z }.

(** Modelled from the spec: a transition of section 3. *)
Record Transition := mk_transition {
  kind : Kind;
  matchRegion : Rect;
  targetStateId : string
}.

(** Modelled from the spec: the screenshot of a state. *)
Record Screenshot := mk_screenshot {
  pixelBytesBase64 : string;
  width : Z;
  height : Z
}.

(** Modelled from the spec: a state of section 3, its transitions in
    declaration order. *)
Record State := mk_state {
  id : string;
  screenshot : Screenshot;
  currentApp : string;
  transitions : list Transition
}.

(** Modelled from the spec: the state graph of section 3.  The states are
    kept in declaration order and looked up by id. *)
Record StateGraph := mk_graph {
  states : list State;
  initialStateId : string
}.

(** Modelled from the spec: the runtime of section 3, a graph with the
    current state id and the history of visited ids. *)
Record t := mk {
  graph : StateGraph;
  currentStateId : string;
  history : list string
}.

(** Modelled from the spec: the state of a given id in the graph. *)
Definition find_state (g : StateGraph) (sid : string) : option State :=
  find (fun s => String.eqb (id s) sid) (states g).

(** Modelled from the spec: a region contains a point, bounds included. *)
Definition contains (r : Rect) (x y : Z) : bool :=
  (x1 r <=? x) && (x <=? x2 r) && (y1 r <=? y) && (y <=? y2 r).

(** Modelled from the spec: a transition is of the given kind. *)
Definition is_kind (k : Kind) (tr : Transition) : bool :=
  match k, kind tr with
  | Tap, Tap | Swipe, Swipe => true
  | _, _ => false
  end.

(** Modelled from the spec: the matching of section 4.2.  The transitions
    of the current state are tried in declaration order; the first one of
    the kind whose region contains the point fires: its target becomes the
    current state and is appended to the history.  With no match nothing
    changes.  The result tells which target fired, if any. *)
Definition dispatch (k : Kind) (x y : Z) (e : t) : option string * t :=
  match find_state (graph e) (currentStateId e) with
  | Some s =>
      match find (fun tr => is_kind k tr && contains (matchRegion tr) x y)
                 (transitions s) with
      | Some tr =>
          (Some (targetStateId tr),
           mk (graph e) (targetStateId tr) (history e ++ [targetStateId tr]))
      | None => (None, e)
      end
  | None => (None, e)
  end.

(** Modelled from the spec: [handleTap(x, y)] of section 4.2. *)
Definition handleTap (x y : Z) (e : t) : option string * t :=
  dispatch Tap x y e.

(** Modelled from the spec: [handleSwipe] of section 4.2; only the start
    point is matched. *)
Definition handleSwipe (startX startY endX endY : Z) (e : t)
    : option string * t :=
  dispatch Swipe startX startY e.

(** Modelled from the spec: [getCurrentScreenshot()] of section 4.2, the
    screenshot of the state at the current id. *)
Definition getCurrentScreenshot (e : t) : ScreenshotResult.t :=
  match find_state (graph e) (currentStateId e) with
  | Some s =>
      ScreenshotResult.mk (pixelBytesBase64 (screenshot s))
        (width (screenshot s)) (height (screenshot s))
  | None => ScreenshotResult.mk "" 0 0
  end.

(** Modelled from the spec: [getCurrentApp()] of section 4.2. *)
Definition getCurrentApp (e : t) : string :=
  match find_state (graph e) (currentStateId e) with
  | Some s => currentApp s
  | None => ""
  end.

(** Modelled from the spec: the engine of a graph as section 3 creates it on
    load, at the initial state with the history holding that state alone. *)
Definition create (g : StateGraph) : t :=
  mk g (initialStateId g) [initialStateId g].

(** Modelled from the spec: [reset()] of section 4.2. *)
Definition reset (e : t) : t := create (graph e).

(** Modelled from the spec: the checks of section 4.1 on a graph, that the
    initial state and every target are declared and no region is
    inverted. *)
Definition declared (g : StateGraph) (sid : string) : bool :=
  bool_decide (is_Some (find_state g sid)).

(** Modelled from the spec: the checks of section 4.1 on one transition. *)
Definition valid_transition (g : StateGraph) (tr : Transition) : bool :=
  declared g (targetStateId tr)
  && (x1 (matchRegion tr) <=? x2 (matchRegion tr))
  && (y1 (matchRegion tr) <=? y2 (matchRegion tr)).

(** Modelled from the spec: the checks of section 4.1 on the whole graph. *)
Definition valid (g : StateGraph) : bool :=
  declared g (initialStateId g)
  && forallb (fun s => forallb (valid_transition g) (transitions s)) (states g).

(** Modelled from the spec: [load(source)] of section 4.1 over a store of
    scenario sources by path.  It fails with a [ScenarioError] when the
    source cannot be read or the graph it describes is not valid; the
    parsing of the source text and the decoding of the pixel data are not
    modelled. *)
Definition load (sources : gmap string StateGraph) (path : string)
    : outcome StateGraph :=
  match sources !! path with
  | None => Raise (Exception "ScenarioError" ("cannot read " +:+ path))
  | Some g =>
      if valid g then Return g
      else Raise (Exception "ScenarioError" ("invalid scenario " +:+ path))
  end.

(** Modelled from the spec: the engine as the harness uses it, over a store
    of scenario sources; the loader gives the engine of the loaded graph. *)
Definition state_machine (sources : gmap string StateGraph) : StateMachine t :=
  {| load_test_case path := g ← load sources path; Return (Some (create g));
     handle_tap x y e := (handleTap x y e).2;
     handle_swipe sx sy ex ey e := (handleSwipe sx sy ex ey e).2;
     get_current_screenshot := getCurrentScreenshot;
     current_state_current_app := getCurrentApp;
     current_state_id := currentStateId;
     state_history := history;
     states_keys e := map id (states (graph e)) |}.

(** Modelled from the spec: the concrete scenario of section 8, where state
    [home] has a tap transition with region [487, 2516, 721, 2667] to
    [message]; the pixel data are placeholders. *)
Definition meituan : StateGraph :=
  mk_graph
    [mk_state "home" (mk_screenshot "aG9tZQ==" 1080 2400) "com.sankuai.meituan"
       [mk_transition Tap (mk_rect 487 2516 721 2667) "message"];
     mk_state "message" (mk_screenshot "bWVzc2FnZQ==" 1080 2400)
       "com.sankuai.meituan" []]
    "home".

Definition scenario_yaml : string :=
  "scenarios/meituan_message/scenario.yaml".

Definition sources : gmap string StateGraph := {[ scenario_yaml := meituan ]}.

End SimulationEngine.

(** A clock reading for the examples. *)
Definition noon : Datetime.t := Datetime.mk 2025 1 15 12 0 0 0.

(** The harness over the scenario of section 8. *)
#[global] Instance meituan_machine : StateMachine SimulationEngine.t :=
  SimulationEngine.state_machine SimulationEngine.sources.

(** The module-level state; the state after the scenario is loaded; and the
    state after a tap at (600, 2590) follows. *)
Definition fresh : MockAgentState.t SimulationEngine.t := MockAgentState.init.

Definition load_meituan : App.Request :=
  App.PostTestLoadScenario
    (LoadScenarioRequest.mk SimulationEngine.scenario_yaml).

Definition tap_message : App.Request :=
  App.Device "mock_001" (App.Tap (TapRequest.mk 600 2590 None)).

Definition loaded : MockAgentState.t SimulationEngine.t :=
  App.run [(load_meituan, noon)] fresh.

Definition tapped : MockAgentState.t SimulationEngine.t :=
  App.run [(load_meituan, noon); (tap_message, noon)] fresh.

(** A tap at (5, 5) sent with an infinite delay, and the state after it. *)
Definition tap_with_infinite_delay : App.Request :=
  App.Device "mock_001"
    (App.Tap (TapRequest.mk 5 5 (Some (Infinity false)))).

Definition tapped_with_infinite_delay : MockAgentState.t SimulationEngine.t :=
  App.run [(tap_with_infinite_delay, noon)] fresh.



(** * The vocabulary of the properties *)

(** Every character of [s] is whitespace. *)
Fixpoint all_space (s : string) : bool :=
  match s with
  | EmptyString => true
  | String c s' => Str.isspace c && all_space s'
  end.

(** The first and the last character of a string. *)
Definition first_char (s : string) : option ascii :=
  match s with
  | EmptyString => None
  | String c _ => Some c
  end.

Fixpoint last_char (s : string) : option ascii :=
  match s with
  | EmptyString => None
  | String c EmptyString => Some c
  | String _ s' => last_char s'
  end.

(** [s] neither starts nor ends with whitespace. *)
Definition trimmed (s : string) : Prop :=
  (forall c, first_char s = Some c -> Str.isspace c = false)
  /\ (forall c, last_char s = Some c -> Str.isspace c = false).

Section Vocabulary.
Context {E : Type} `{!StateMachine E}.

Implicit Types (state : MockAgentState.t E) (now : Datetime.t).
Implicit Types (device_id : string) (call : App.DeviceCall).

(** The action name a call is recorded under: the verb, except for
    [current_app], which the route records as [get_current_app]. *)
Definition recorded_action call : string :=
  match call with
  | App.CurrentApp => "get_current_app"
  | _ => App.verb call
  end.

(** The claim of C1 as the specification words it: the appended record
    carries the verb of the call as its action. *)
Definition records_verb device_id call now state : Prop :=
  exists params,
    MockAgentState.commands (App.device device_id call now state).2
    = MockAgentState.commands state
      ++ [CommandRecord.mk (App.verb call) device_id params now].




(** What the routes keep true of every record: no parameter is named
    [action], and a record of a tap carries its coordinates as integers. *)
Definition record_ok (c : CommandRecord.t) : Prop :=
  CommandRecord.params c !! "action" = None
  /\ (CommandRecord.action c = "tap" ->
      exists x y, CommandRecord.params c !! "x" = Some (VInt x)
               /\ CommandRecord.params c !! "y" = Some (VInt y)).

(** The recorded taps: the records whose action is [tap], in order. *)
Definition tap_commands state : list CommandRecord.t :=
  filter (fun c => CommandRecord.action c = "tap")
         (MockAgentState.commands state).

(** The simplified entry of a record, as [get_command_actions] builds it. *)
Definition simplified (c : CommandRecord.t) : gmap string pyval :=
  CommandRecord.params c ∪ {[ "action" := VStr (CommandRecord.action c) ]}.

(** The tap of index [n], counted from 0 in the order of recording; there
    is none of a negative index. *)
Definition nth_tap (n : Z) state : option CommandRecord.t :=
  if n <? 0 then None else tap_commands state !! Z.to_nat n.

(** The tap of index [n] was recorded at [(x, y)]. *)
Definition nth_tap_at (n : Z) state (x y : Z) : Prop :=
  exists c, nth_tap n state = Some c
    /\ CommandRecord.params c !! "x" = Some (VInt x)
    /\ CommandRecord.params c !! "y" = Some (VInt y).

(** The claim of C8 for one call of [assert_tap_in_region]: it ends in an
    assertion failure exactly when fewer than [n + 1] taps are recorded or
    the tap of index [n] lies outside the rectangle, it returns exactly when
    that tap lies inside, bounds included, and it ends in no other way. *)
Definition tap_in_region_claim (float_repr : float -> string)
    (x1 y1 x2 y2 n : Z) state : Prop :=
  let result :=
    MockAgentTestClient.assert_tap_in_region float_repr x1 y1 x2 y2 n state in
  (is_assertion_failure result <->
     Z.of_nat (length (tap_commands state)) < n + 1
     \/ exists x y, nth_tap_at n state x y
                  /\ ~ (x1 <= x <= x2 /\ y1 <= y <= y2))
  /\ (result = Return tt <->
      exists x y, nth_tap_at n state x y
                  /\ x1 <= x <= x2 /\ y1 <= y <= y2)
  /\ (result = Return tt \/ is_assertion_failure result).

(** The record a device call appends: its recorded action, the device id,
    exactly the parameters of the call, and the clock reading. *)
Definition appended device_id call now : CommandRecord.t :=
  CommandRecord.mk (recorded_action call) device_id
    (list_to_map (App.parameters call)) now.

(** The harness as a transition system, one component at a time: what a
    request does to the log, to the engine and to the stored path. *)
Definition log_after (log : list CommandRecord.t) (request : App.Request) now
    : list CommandRecord.t :=
  match request with
  | App.Device device_id call => log ++ [appended device_id call now]
  | App.PostTestReset => []
  | _ => log
  end.

Definition engine_after (engine : option E) (request : App.Request)
    : option E :=
  match request with
  | App.Device _ (App.Tap req) | App.Device _ (App.DoubleTap req) =>
      handle_tap (TapRequest.x req) (TapRequest.y req) <$> engine
  | App.Device _ (App.LongPress req) =>
      handle_tap (LongPressRequest.x req) (LongPressRequest.y req) <$> engine
  | App.Device _ (App.Swipe req) =>
      handle_swipe (SwipeRequest.start_x req) (SwipeRequest.start_y req)
                   (SwipeRequest.end_x req) (SwipeRequest.end_y req)
        <$> engine
  | App.PostTestLoadScenario req =>
      match load_test_case (LoadScenarioRequest.scenario_path req) with
      | Return loaded => loaded
      | Raise _ => engine
      end
  | _ => engine
  end.

Definition path_after (path : option string) (request : App.Request)
    : option string :=
  match request with
  | App.PostTestLoadScenario req => Some (LoadScenarioRequest.scenario_path req)
  | _ => path
  end.

Definition state_after state (step : App.Request * Datetime.t)
    : MockAgentState.t E :=
  MockAgentState.mk
    (log_after (MockAgentState.commands state) step.1 step.2)
    (engine_after (MockAgentState.state_machine state) step.1)
    (path_after (MockAgentState.scenario_path state) step.1).

(** No parameter of the record, and of the log, is an infinity or
    not-a-number: the parameters can be sent as JSON. *)
Definition finite_params (c : CommandRecord.t) : bool :=
  Json.encodable (VDict (CommandRecord.params c)).

Definition finite_log state : bool :=
  forallb finite_params (MockAgentState.commands state).


(** The claim of C2 for one list of expected names, sent by the client as
    the names joined by commas: the answer reports a match exactly when the
    recorded action names are the list. *)
Definition expect_matches_list (expected : list string) now state : Prop :=
  exists body matched,
    (App.app (App.GetTestExpect (Str.join "," expected)) now state).1
    = App.mk_response 200 (VDict body)
    /\ body !! "match" = Some (VBool matched)
    /\ (matched = true <-> Routes.actual_actions state = expected).


(** The records of one device id in a log, and what a request does to
    them. *)
Definition of_device (device_id : string) (log : list CommandRecord.t)
    : list CommandRecord.t :=
  filter (fun c => CommandRecord.device_id c = device_id) log.

Definition device_log_after (device_id : string) (log : list CommandRecord.t)
    (step : App.Request * Datetime.t) : list CommandRecord.t :=
  match step.1 with
  | App.Device d call =>
      if decide (d = device_id) then log ++ [appended d call step.2] else log
  | App.PostTestReset => []
  | _ => log
  end.

(** A request sent to another device id instead. *)
Definition retarget (device_id : string) (step : App.Request * Datetime.t)
    : App.Request * Datetime.t :=
  match step.1 with
  | App.Device _ call => (App.Device device_id call, step.2)
  | _ => step
  end.

(** Two states that differ at most in the device ids of their records. *)
Definition same_but_ids (s1 s2 : MockAgentState.t E) : Prop :=
  MockAgentState.state_machine s1 = MockAgentState.state_machine s2
  /\ Routes.actual_actions s1 = Routes.actual_actions s2.

(** Every character of [s] is one of [chars]. *)
Fixpoint all_chars_in (chars s : string) : bool :=
  match s with
  | EmptyString => true
  | String c s' => Str.contains c chars && all_chars_in chars s'
  end.

(** An action name that goes through the query of [expect] unchanged: not
    empty, without a comma, without whitespace at its ends. *)
Definition clean_name (w : string) : bool :=
  negb (String.eqb w EmptyString) && negb (Str.contains "," w)
  && String.eqb (Str.strip w) w.

End Vocabulary.

(** * Properties of the string operations *)

Example split_example :
  Str.split "," "tap, swipe ,,tap" = ["tap"; " swipe "; ""; "tap"].
Proof. reflexivity. Qed.

Example expected_actions_example :
  Routes.expected_actions " tap, swipe ,,tap " = ["tap"; "swipe"; ""; "tap"].
Proof. reflexivity. Qed.

Example repr_list_example :
  Str.repr_list ["tap"; "it's"; ""] = "['tap', " +:+ String Str.dquote "it's"
                                      +:+ String Str.dquote ", '']".
Proof. reflexivity. Qed.

Example isoformat_example :
  Datetime.isoformat (Datetime.mk 2025 1 15 9 5 0 1500)
  = "2025-01-15T09:05:00.001500".
Proof. reflexivity. Qed.

Lemma split_not_nil sep s : Str.split sep s <> [].
Proof.
  destruct s as [|c s]; cbn; [discriminate|].
  destruct (Ascii.eqb c sep); [discriminate|].
  destruct (Str.split sep s); discriminate.
Qed.

Lemma join_cons_char sep c w ws :
  Str.join sep (String c w :: ws) = String c (Str.join sep (w :: ws)).
Proof. destruct ws; reflexivity. Qed.

Lemma join_cons_empty sep w ws :
  Str.join sep (EmptyString :: w :: ws) = sep +:+ Str.join sep (w :: ws).
Proof. reflexivity. Qed.

(** Joining the pieces with the separator gives the text back. *)
Lemma join_split sep s :
  Str.join (String sep EmptyString) (Str.split sep s) = s.
Proof.
  induction s as [|c s IH]; [reflexivity|].
  pose proof (split_not_nil sep s) as Hnil.
  cbn [Str.split]. destruct (Ascii.eqb_spec c sep) as [->|Hne];
    destruct (Str.split sep s) as [|w ws]; try done.
  - rewrite join_cons_empty, IH. reflexivity.
  - rewrite join_cons_char, IH. reflexivity.
Qed.

(** No piece holds the separator. *)
Lemma split_no_sep sep s :
  Forall (fun w => Str.contains sep w = false) (Str.split sep s).
Proof.
  induction s as [|c s IH]; cbn [Str.split].
  - by repeat constructor.
  - destruct (Ascii.eqb_spec c sep) as [->|Hne].
    + by constructor.
    + pose proof (split_not_nil sep s) as Hnil.
      destruct (Str.split sep s) as [|w ws]; [done|].
      inversion IH as [|? ? Hw Hws]; subst. constructor; [|done].
      unfold Str.contains in *. cbn.
      destruct (Ascii.eqb_spec sep c) as [->|_]; [done|]. exact Hw.
Qed.

(** Splitting a joined list gives the list back, when it is not empty and
    no element holds the separator. *)
Lemma split_app_sep sep w rest :
  Str.contains sep w = false ->
  Str.split sep (w +:+ String sep rest) = w :: Str.split sep rest.
Proof.
  unfold Str.contains.
  induction w as [|c w IH];
    cbn [list_ascii_of_string existsb]; intros Hw.
  - change (Str.split sep (String sep rest) = EmptyString :: Str.split sep rest).
    cbn [Str.split]. by rewrite Ascii.eqb_refl.
  - apply orb_false_elim in Hw as [Hc Hw].
    change (Str.split sep (String c (w +:+ String sep rest))
            = String c w :: Str.split sep rest).
    cbn [Str.split]. rewrite Ascii.eqb_sym, Hc. by rewrite IH.
Qed.

Lemma split_no_sep_id sep w :
  Str.contains sep w = false -> Str.split sep w = [w].
Proof.
  unfold Str.contains.
  induction w as [|c w IH];
    cbn [Str.split list_ascii_of_string existsb]; intros Hw; [done|].
  apply orb_false_elim in Hw as [Hc Hw].
  rewrite Ascii.eqb_sym, Hc. by rewrite IH.
Qed.

Lemma split_join sep (l : list string) :
  l <> [] -> Forall (fun w => Str.contains sep w = false) l ->
  Str.split sep (Str.join (String sep EmptyString) l) = l.
Proof.
  intros Hne Hl. induction Hl as [|w l Hw Hl IH]; [done|].
  destruct l as [|w' l]; [by apply split_no_sep_id|].
  change (Str.join (String sep EmptyString) (w :: w' :: l))
    with (w +:+ String sep (Str.join (String sep EmptyString) (w' :: l))).
  rewrite split_app_sep by exact Hw. by rewrite IH.
Qed.

Lemma lstrip_spec s :
  exists l, s = l +:+ Str.lstrip s /\ all_space l = true
    /\ forall c, first_char (Str.lstrip s) = Some c -> Str.isspace c = false.
Proof.
  induction s as [|c s (l & Heq & Hl & Hfirst)].
  - exists EmptyString. by repeat split.
  - cbn [Str.lstrip]. destruct (Str.isspace c) eqn:Hc.
    + exists (String c l). split; [|split; [|done]].
      * change (String c s = String c (l +:+ Str.lstrip s)). by rewrite <- Heq.
      * cbn [all_space]. by rewrite Hc, Hl.
    + exists EmptyString. repeat split. cbn. by intros ? [= <-].
Qed.

Lemma rstrip_spec s :
  exists r, s = Str.rstrip s +:+ r /\ all_space r = true
    /\ (forall c, last_char (Str.rstrip s) = Some c -> Str.isspace c = false)
    /\ (Str.rstrip s <> EmptyString -> first_char (Str.rstrip s) = first_char s).
Proof.
  induction s as [|c s (r & Heq & Hr & Hlast & Hfirst)].
  - exists EmptyString. by repeat split.
  - cbn [Str.rstrip]. destruct (Str.rstrip s) as [|c' t] eqn:Ht.
    + change (s = r) in Heq. subst r. destruct (Str.isspace c) eqn:Hc.
      * exists (String c s). repeat split; try done.
        cbn [all_space]. by rewrite Hc, Hr.
      * exists s. repeat split; try done. cbn. by intros ? [= <-].
    + exists r. split; [|split; [done|split; [|done]]].
      * change (String c s = String c (String c' t +:+ r)). by rewrite <- Heq.
      * intros c0 Hc0. apply Hlast. exact Hc0.
Qed.

(** [strip] removes whitespace from both ends and nothing else, and what
    is left neither starts nor ends with whitespace. *)
Lemma strip_spec s :
  exists l r, s = l +:+ Str.strip s +:+ r
    /\ all_space l = true /\ all_space r = true /\ trimmed (Str.strip s).
Proof.
  destruct (lstrip_spec s) as (l & Hl & Hsl & Hfirst).
  destruct (rstrip_spec (Str.lstrip s)) as (r & Hr & Hsr & Hlast & Hkeep).
  exists l, r. unfold Str.strip, trimmed.
  split; [by rewrite <- Hr|]. split; [done|]. split; [done|].
  split; [|done]. intros c Hc. apply Hfirst. rewrite <- Hkeep; [done|].
  intros Hempty. by rewrite Hempty in Hc.
Qed.

(** * Properties of the JSON answers *)

Lemma encodable_insert key v (d : gmap string pyval) :
  d !! key = None ->
  Json.encodable (VDict (<[key:=v]> d))
  = Json.encodable v && Json.encodable (VDict d).
Proof.
  intros Hnone. cbn [Json.encodable].
  rewrite map_fold_insert_L; [reflexivity| |exact Hnone].
  intros. rewrite !andb_assoc. f_equal. apply andb_comm.
Qed.

Lemma encodable_strs (l : list string) :
  Json.encodable (VList (map VStr l)) = true.
Proof. cbn [Json.encodable]. induction l; [reflexivity|]. cbn. exact IHl. Qed.

Lemma encodable_dicts (l : list (gmap string pyval)) :
  Json.encodable (VList (map VDict l))
  = forallb (fun d => Json.encodable (VDict d)) l.
Proof.
  cbn [Json.encodable]. induction l as [|d l IH]; [reflexivity|].
  cbn [map forallb]. by rewrite IH.
Qed.

Lemma objects_dicts (l : list (gmap string pyval)) :
  Json.objects (VList (map VDict l)) = l.
Proof.
  cbn [Json.objects]. induction l as [|d l IH]; [reflexivity|].
  cbn. by rewrite IH.
Qed.

Lemma respond_encodable v :
  Json.encodable v = true -> App.respond (Return v) = App.mk_response 200 v.
Proof. intros Hv. unfold App.respond. by rewrite Hv. Qed.

Lemma respond_not_encodable v :
  Json.encodable v = false ->
  App.respond (Return v) = App.mk_response 500 (VStr "Internal Server Error").
Proof. intros Hv. unfold App.respond. by rewrite Hv. Qed.

(** A dictionary written out key by key can be sent when its items can. *)
Ltac encodable_body :=
  unfold list_to_map; cbn [foldr fst snd];
  repeat (rewrite encodable_insert by reflexivity);
  rewrite ?encodable_strs; reflexivity.

(** The entries of both listings can be sent exactly when the parameters of
    the record can. *)
Lemma encodable_to_dict (c : CommandRecord.t) :
  Json.encodable (VDict (CommandRecord.to_dict c)) = finite_params c.
Proof.
  unfold CommandRecord.to_dict, finite_params, list_to_map. cbn [foldr fst snd].
  repeat (rewrite encodable_insert by reflexivity).
  change (Json.encodable (VStr _)) with true.
  change (Json.encodable (VDict ∅)) with true.
  by rewrite !andb_true_r.
Qed.

Lemma encodable_simplified (c : CommandRecord.t) :
  Json.encodable (VDict (simplified c)) = finite_params c.
Proof.
  unfold simplified, finite_params.
  destruct (CommandRecord.params c !! "action") as [v|] eqn:Haction.
  - f_equal. f_equal. apply map_eq. intros key.
    destruct (decide (key = "action")) as [->|Hne].
    + by rewrite (lookup_union_Some_l _ _ _ v).
    + destruct (CommandRecord.params c !! key) as [w|] eqn:Hkey.
      * by rewrite (lookup_union_Some_l _ _ _ w).
      * rewrite lookup_union_r by exact Hkey. by rewrite lookup_singleton_ne.
  - rewrite <- insert_union_singleton_r by exact Haction.
    by rewrite encodable_insert.
Qed.

Lemma get_commands_encodable {E} (state : MockAgentState.t E) :
  Json.encodable (VList (map VDict (Routes.get_commands state)))
  = finite_log state.
Proof.
  rewrite encodable_dicts. unfold Routes.get_commands, finite_log.
  induction (MockAgentState.commands state) as [|c log IH]; [reflexivity|].
  cbn [map forallb]. by rewrite IH, encodable_to_dict.
Qed.

Lemma get_command_actions_encodable {E} (state : MockAgentState.t E) :
  Json.encodable (VList (map VDict (Routes.get_command_actions state)))
  = finite_log state.
Proof.
  rewrite encodable_dicts. unfold Routes.get_command_actions, finite_log.
  induction (MockAgentState.commands state) as [|c log IH]; [reflexivity|].
  cbn [map forallb]. rewrite IH. f_equal. apply encodable_simplified.
Qed.

Lemma expect_commands_encodable {E} `{!StateMachine E} actions
    (state : MockAgentState.t E) :
  Json.encodable (Routes.expect_commands actions state) = true.
Proof. unfold Routes.expect_commands. encodable_body. Qed.

Lemma get_state_encodable {E} `{!StateMachine E} (state : MockAgentState.t E) :
  Json.encodable (Routes.get_state state) = true.
Proof.
  unfold Routes.get_state.
  destruct (MockAgentState.state_machine state); encodable_body.
Qed.

(** * Properties of the harness *)

Section HarnessProperties.
Context {E : Type} `{!StateMachine E}.

Implicit Types (state : MockAgentState.t E) (now : Datetime.t).
Implicit Types (device_id : string) (call : App.DeviceCall).

(** [record] appends one record and touches nothing else. *)
Lemma record_commands action device_id params now state :
  MockAgentState.commands
    (MockAgentState.record action device_id params now state)
  = MockAgentState.commands state
    ++ [CommandRecord.mk action device_id params now].
Proof. reflexivity. Qed.

Lemma record_state_machine action device_id params now state :
  MockAgentState.state_machine
    (MockAgentState.record action device_id params now state)
  = MockAgentState.state_machine state.
Proof. reflexivity. Qed.

(** A call on the engine leaves the log as it is. *)
Lemma on_state_machine_commands (m : E -> E) state :
  MockAgentState.commands (MockAgentState.on_state_machine m state)
  = MockAgentState.commands state.
Proof.
  destruct state as [log [sm|] path]; reflexivity.
Qed.

Lemma on_state_machine_engine (m : E -> E) state :
  MockAgentState.state_machine (MockAgentState.on_state_machine m state)
  = m <$> MockAgentState.state_machine state.
Proof.
  destruct state as [log [sm|] path]; reflexivity.
Qed.

(** The log after a device call, whatever the engine. *)
Lemma device_commands device_id call now state :
  exists params,
    MockAgentState.commands (App.device device_id call now state).2
    = MockAgentState.commands state
      ++ [CommandRecord.mk (recorded_action call) device_id params now]
    /\ forall key v, (key, v) ∈ App.parameters call -> params !! key = Some v.
Proof.
  destruct call; cbn -[list_to_map];
    rewrite ?on_state_machine_commands, ?record_commands;
    eexists; (split; [reflexivity|]);
    intros key v Hin; cbn in Hin;
    repeat (apply elem_of_cons in Hin as [Heq|Hin];
            [injection Heq as -> ->; reflexivity|]);
    by apply elem_of_nil in Hin.
Qed.

(** C1 (amended): every call to a device-control route appends exactly one
    record to the log, before anything else and whether or not a scenario
    is loaded.  The record carries the caller's device id, the clock
    reading, and every parameter of the call; its action is the verb of the
    route, except that [current_app] is recorded as [get_current_app]. *)
Theorem device_call_recorded device_id call now state :
  exists params,
    MockAgentState.commands (App.device device_id call now state).2
    = MockAgentState.commands state
      ++ [CommandRecord.mk
            (match call with
             | App.CurrentApp => "get_current_app"
             | _ => App.verb call
             end) device_id params now]
    /\ (forall key v,
          (key, v) ∈ App.parameters call -> params !! key = Some v)
    /\ (call <> App.CurrentApp -> records_verb device_id call now state).
Proof.
  destruct (device_commands device_id call now state) as (params & Hlog & Hpar).
  exists params. split; [exact Hlog|]. split; [exact Hpar|].
  intros Hne. exists params. rewrite Hlog.
  destruct call; try reflexivity. congruence.
Qed.

(** The query the client builds from a list of action names reads back as
    that list, when the list is not empty and no name holds a comma or has
    whitespace at an end; [expect] then compares the log with the list. *)
Lemma expected_actions_join (l : list string) :
  l <> [] ->
  Forall (fun w => Str.contains "," w = false /\ Str.strip w = w) l ->
  Routes.expected_actions (Str.join "," l) = l.
Proof.
  intros Hne Hl. unfold Routes.expected_actions.
  rewrite split_join; [|exact Hne|by eapply Forall_impl; [exact Hl|intros ? []]].
  induction Hl as [|w l [_ Hw] _ IH]; [done|]. cbn [map].
  rewrite Hw. destruct l as [|w' l]; [done|]. by rewrite IH.
Qed.

Lemma expect_of_list (l : list string) state :
  l <> [] ->
  Forall (fun w => Str.contains "," w = false /\ Str.strip w = w) l ->
  exists body matched,
    MockAgentTestClient.expect l state = VDict body
    /\ body !! "match" = Some (VBool matched)
    /\ (matched = true
        <-> map CommandRecord.action (MockAgentState.commands state) = l).
Proof.
  intros Hne Hl. unfold MockAgentTestClient.expect, Routes.expect_commands.
  rewrite expected_actions_join by done.
  eexists _, _. split; [reflexivity|]. split; [reflexivity|].
  apply bool_decide_eq_true.
Qed.

(** C2 (amended): for every log, the [expect] route answers every query
    with status 200 and a body that carries [match], [expected], [actual]
    and [message], and the log, the engine and the scenario path are left
    as they were.  For every list of expected names that is not empty and
    whose names hold no comma and no whitespace at their ends, sent as the
    names joined by commas, [expected] is that list and [match] is true
    exactly when the recorded action names, in order, are the list; the
    message says so in words. *)
Theorem expect_commands_reports (expected : list string) now state :
  expected <> [] ->
  Forall (fun w => Str.contains "," w = false /\ Str.strip w = w) expected ->
  let actual := map CommandRecord.action (MockAgentState.commands state) in
  (exists body matched message,
     App.app (App.GetTestExpect (Str.join "," expected)) now state
     = (App.mk_response 200 (VDict body), state)
     /\ body !! "match" = Some (VBool matched)
     /\ body !! "expected" = Some (VList (map VStr expected))
     /\ body !! "actual" = Some (VList (map VStr actual))
     /\ body !! "message" = Some (VStr message)
     /\ (matched = true <-> actual = expected)
     /\ (message = "Commands match!" <-> matched = true))
  /\ expect_matches_list expected now state
  /\ (forall actions : string,
        exists body matched listed message,
          App.app (App.GetTestExpect actions) now state
          = (App.mk_response 200 (VDict body), state)
          /\ body !! "match" = Some (VBool matched)
          /\ body !! "expected" = Some (VList (map VStr listed))
          /\ body !! "actual" = Some (VList (map VStr actual))
          /\ body !! "message" = Some (VStr message)
          /\ (matched = true <-> actual = listed)).
Proof.
  intros Hne Hclean actual.
  pose proof (expected_actions_join expected Hne Hclean) as Hparsed.
  assert (forall actions : string,
            App.app (App.GetTestExpect actions) now state
            = (App.mk_response 200 (Routes.expect_commands actions state),
               state)) as Happ.
  { intros actions. cbn [App.app].
    by rewrite respond_encodable by apply expect_commands_encodable. }
  split; [|split].
  - eexists _, (bool_decide (actual = expected)), _.
    rewrite Happ. unfold Routes.expect_commands. rewrite Hparsed.
    split; [reflexivity|]. repeat (split; [reflexivity|]).
    split; [apply bool_decide_eq_true|].
    subst actual. unfold Routes.actual_actions.
    destruct (bool_decide _); [split; reflexivity|].
    split; [|discriminate]. cbn. discriminate.
  - eexists _, (bool_decide (actual = expected)).
    rewrite Happ. unfold Routes.expect_commands. rewrite Hparsed.
    cbn [fst]. split; [reflexivity|]. split; [reflexivity|].
    apply bool_decide_eq_true.
  - intros actions.
    eexists _, (bool_decide (actual = Routes.expected_actions actions)),
      (Routes.expected_actions actions), _.
    rewrite Happ. unfold Routes.expect_commands.
    split; [reflexivity|]. repeat (split; [reflexivity|]).
    apply bool_decide_eq_true.
Qed.

(** C5: the [reset] route empties the log and changes nothing else: the
    engine, with its current state id and its history, and the scenario
    path are what they were. *)
Theorem reset_clears_commands_only now state :
  let state' := (App.app App.PostTestReset now state).2 in
  MockAgentState.commands state' = []
  /\ MockAgentState.state_machine state' = MockAgentState.state_machine state
  /\ MockAgentState.scenario_path state' = MockAgentState.scenario_path state
  /\ current_state_id <$> MockAgentState.state_machine state'
     = current_state_id <$> MockAgentState.state_machine state
  /\ state_history <$> MockAgentState.state_machine state'
     = state_history <$> MockAgentState.state_machine state
  /\ Routes.get_state state' = Routes.get_state state.
Proof. cbn. repeat split. Qed.

(** C6: with no scenario loaded, [screenshot] answers the fixed placeholder
    (no pixel data, 1080 by 2400, not sensitive), [current_app] the fixed
    placeholder app, and [get_state] a null current state with an empty
    history; each answer has status 200. *)
Theorem placeholders_without_scenario device_id req now state :
  MockAgentState.state_machine state = None ->
  (App.app (App.Device device_id (App.Screenshot req)) now state).1
  = App.mk_response 200
      (VDict (<["base64_data" := VStr ""]> (<["width" := VInt 1080]>
              (<["height" := VInt 2400]>
               (<["is_sensitive" := VBool false]> ∅)))))
  /\ (App.app (App.Device device_id App.CurrentApp) now state).1
     = App.mk_response 200 (VDict {[ "app_name" := VStr "com.mock.app" ]})
  /\ (App.app App.GetTestState now state).1
     = App.mk_response 200
         (VDict (<["current_state" := VNone]> (<["history" := VList []]> ∅))).
Proof.
  intros Hnone. destruct state as [log sm path]. cbn in Hnone. subst sm.
  repeat split.
Qed.

(** C7: [tap], [double_tap] and [long_press] at [(x, y)] call [handle_tap]
    with exactly [(x, y)], once, on the engine when there is one, and leave
    the harness without an engine when there is none; [type_text],
    [clear_text], [back], [home], [launch_app], [detect_keyboard] and
    [restore_keyboard] leave the engine as it is. *)
Theorem engine_dispatch device_id call now state :
  MockAgentState.state_machine (App.device device_id call now state).2
  = match call with
    | App.Tap req | App.DoubleTap req =>
        handle_tap (TapRequest.x req) (TapRequest.y req)
          <$> MockAgentState.state_machine state
    | App.LongPress req =>
        handle_tap (LongPressRequest.x req) (LongPressRequest.y req)
          <$> MockAgentState.state_machine state
    | App.Swipe req =>
        handle_swipe (SwipeRequest.start_x req) (SwipeRequest.start_y req)
                     (SwipeRequest.end_x req) (SwipeRequest.end_y req)
          <$> MockAgentState.state_machine state
    | App.TypeText _ | App.ClearText | App.Back _ | App.Home _
    | App.LaunchApp _ | App.DetectKeyboard | App.RestoreKeyboard _
    | App.Screenshot _ | App.CurrentApp =>
        MockAgentState.state_machine state
    end.
Proof.
  destruct call; cbn -[list_to_map];
    rewrite ?on_state_machine_engine; reflexivity.
Qed.

(** A failed load at the level of the state: the exception goes on to the
    caller, the path has been stored and the engine has not been
    assigned. *)
Lemma load_scenario_raises path e state :
  load_test_case path = Raise e ->
  MockAgentState.load_scenario path state
  = (Raise e,
     MockAgentState.mk (MockAgentState.commands state)
       (MockAgentState.state_machine state) (Some path)).
Proof. intros Hload. unfold MockAgentState.load_scenario. by rewrite Hload. Qed.

(** C3: when the loader raises, the [load_scenario] route answers with
    status 400 and the detail of the failure, and the engine of the harness
    is the one it had before, unchanged; the log is untouched as well. *)
Theorem load_scenario_failure_keeps_engine req e now state :
  load_test_case (LoadScenarioRequest.scenario_path req) = Raise e ->
  let '(response, state') := App.app (App.PostTestLoadScenario req) now state in
  response
  = App.mk_response 400
      (VDict {[ "detail" := VStr ("Failed to load scenario: " +:+ exn_str e) ]})
  /\ MockAgentState.state_machine state' = MockAgentState.state_machine state
  /\ MockAgentState.commands state' = MockAgentState.commands state.
Proof.
  intros Hload. cbn. unfold Routes.load_scenario.
  rewrite (load_scenario_raises _ e) by exact Hload.
  cbn. repeat split.
Qed.

(** C10: when the loader raises, [MockAgentState.load_scenario] passes the
    exception on, with the [scenario_path] field already set to the path
    that failed and the [state_machine] field still holding its previous
    value; the route does not restore the path either. *)
Theorem load_scenario_failure_overwrites_path path e now state :
  load_test_case path = Raise e ->
  let '(result, state') := MockAgentState.load_scenario path state in
  let state'' :=
    (App.app (App.PostTestLoadScenario (LoadScenarioRequest.mk path))
       now state).2 in
  result = Raise e
  /\ MockAgentState.scenario_path state' = Some path
  /\ MockAgentState.state_machine state' = MockAgentState.state_machine state
  /\ MockAgentState.scenario_path state'' = Some path
  /\ MockAgentState.state_machine state'' = MockAgentState.state_machine state.
Proof.
  intros Hload. cbn. unfold Routes.load_scenario. cbn.
  rewrite (load_scenario_raises _ e) by exact Hload.
  cbn. repeat split.
Qed.




(** C9: the expected list of the [expect] route is the query split at its
    commas, each piece with the whitespace at its two ends removed and
    nothing else.  The empty query gives the list of one empty string, no
    query gives the empty list, and so on an empty log [match] is false
    whatever the query. *)
Theorem expected_actions_never_empty (actions : string) now state :
  Routes.expected_actions actions = map Str.strip (Str.split "," actions)
  /\ Str.join "," (Str.split "," actions) = actions
  /\ Forall (fun piece => Str.contains "," piece = false)
        (Str.split "," actions)
  /\ Forall (fun piece =>
               exists l r, piece = l +:+ Str.strip piece +:+ r
                 /\ all_space l = true /\ all_space r = true
                 /\ trimmed (Str.strip piece))
        (Str.split "," actions)
  /\ Routes.expected_actions "" = [""]
  /\ Routes.expected_actions actions <> []
  /\ (MockAgentState.commands state = [] ->
      exists body,
        (App.app (App.GetTestExpect actions) now state).1
        = App.mk_response 200 (VDict body)
        /\ body !! "match" = Some (VBool false)).
Proof.
  split; [reflexivity|]. split; [apply join_split|].
  split; [apply split_no_sep|].
  split; [apply Forall_forall; intros piece _; apply strip_spec|].
  split; [reflexivity|].
  assert (Routes.expected_actions actions <> []) as Hne.
  { unfold Routes.expected_actions. intros Hnil.
    apply map_eq_nil in Hnil. by apply split_not_nil in Hnil. }
  split; [exact Hne|].
  intros Hempty. eexists. cbn [App.app fst].
  rewrite respond_encodable by apply expect_commands_encodable.
  split; [reflexivity|].
  cbn. unfold Routes.actual_actions. rewrite Hempty. cbn.
  rewrite bool_decide_eq_false_2; [reflexivity|].
  intros Heq. by apply Hne.
Qed.

(** ** The log of a reachable state *)

Lemma device_record_ok device_id call now state :
  exists c,
    MockAgentState.commands (App.device device_id call now state).2
    = MockAgentState.commands state ++ [c]
    /\ record_ok c.
Proof.
  destruct call; cbn -[list_to_map];
    rewrite ?on_state_machine_commands, ?record_commands;
    eexists; (split; [reflexivity|]); (split; [reflexivity|]);
    cbn; try discriminate.
  intros _. by eexists _, _.
Qed.

Lemma load_scenario_commands path state :
  MockAgentState.commands (MockAgentState.load_scenario path state).2
  = MockAgentState.commands state.
Proof.
  unfold MockAgentState.load_scenario.
  destruct (load_test_case path); reflexivity.
Qed.

Lemma reachable_log_ok state :
  App.reachable state -> Forall record_ok (MockAgentState.commands state).
Proof.
  induction 1 as [|scenario_path state _ IH|request now state _ IH].
  - constructor.
  - destruct scenario_path as [path|]; cbn; [|exact IH].
    destruct (String.eqb path ""); [exact IH|].
    by rewrite load_scenario_commands.
  - destruct request; cbn; try exact IH.
    + destruct (device_record_ok device_id call now state) as (c & Hlog & Hc).
      destruct (App.device device_id call now state) as [v state'].
      cbn in *. rewrite Hlog.
      apply Forall_app. split; [exact IH|]. by apply Forall_singleton.
    + constructor.
    + unfold Routes.load_scenario.
      pose proof (load_scenario_commands
                    (LoadScenarioRequest.scenario_path req) state) as Hlog.
      destruct (MockAgentState.load_scenario _ state) as [[?|?] state'];
        cbn in *; by rewrite Hlog.
Qed.





Lemma get_actions_non_finite state :
  finite_log state = false ->
  MockAgentTestClient.get_actions state
  = Raise (Exception "JSONDecodeError"
             "Expecting value: line 1 column 1 (char 0)").
Proof.
  intros Hfinite. unfold MockAgentTestClient.get_actions.
  rewrite respond_not_encodable
    by (by rewrite get_command_actions_encodable).
  reflexivity.
Qed.

Lemma get_commands_finite state :
  finite_log state = true ->
  MockAgentTestClient.get_commands state = Return (Routes.get_commands state).
Proof.
  intros Hfinite. unfold MockAgentTestClient.get_commands.
  rewrite respond_encodable by (by rewrite get_commands_encodable).
  cbn [App.json App.status_code App.body mbind outcome_bind Z.eqb Pos.eqb].
  by rewrite objects_dicts.
Qed.

Lemma get_commands_non_finite state :
  finite_log state = false ->
  MockAgentTestClient.get_commands state
  = Raise (Exception "JSONDecodeError"
             "Expecting value: line 1 column 1 (char 0)").
Proof.
  intros Hfinite. unfold MockAgentTestClient.get_commands.
  rewrite respond_not_encodable by (by rewrite get_commands_encodable).
  reflexivity.
Qed.

(** The answers to [GET /test/state] and [GET /test/expect] decode to the
    values of the routes, which the client's [get_state] and [expect]
    are. *)
Lemma get_state_decoded state :
  App.json (App.respond (Return (Routes.get_state state)))
  = Return (MockAgentTestClient.get_state state).
Proof.
  by rewrite respond_encodable by apply get_state_encodable.
Qed.

Lemma expect_decoded (actions : list string) state :
  App.json (App.respond
              (Return (Routes.expect_commands (Str.join "," actions) state)))
  = Return (MockAgentTestClient.expect actions state).
Proof.
  by rewrite respond_encodable by apply expect_commands_encodable.
Qed.

Lemma reachable_run requests state :
  App.reachable state -> App.reachable (App.run requests state).
Proof.
  revert state. induction requests as [|[request now] requests IH];
    intros state Hstate; [exact Hstate|].
  cbn [App.run]. apply IH. by constructor.
Qed.



End HarnessProperties.

(** * Further properties of the harness and of the client *)

Section MoreProperties.
Context {E : Type} `{!StateMachine E}.

Implicit Types (state : MockAgentState.t E) (now : Datetime.t).
Implicit Types (device_id : string) (call : App.DeviceCall).

(** A device call, whole: one record more, the engine after the dispatch,
    and the stored path as it was. *)
Lemma device_state device_id call now state :
  (App.device device_id call now state).2
  = state_after state (App.Device device_id call, now).
Proof.
  destruct state as [log [sm|] path]; destruct call; reflexivity.
Qed.

Lemma app_state request now state :
  (App.app request now state).2 = state_after state (request, now).
Proof.
  destruct request as [|device_id call| | | |req| |].
  - by destruct state.
  - cbn [App.app]. pose proof (device_state device_id call now state) as Hd.
    destruct (App.device device_id call now state). exact Hd.
  - by destruct state.
  - by destruct state.
  - by destruct state.
  - unfold state_after, App.app, Routes.load_scenario,
      MockAgentState.load_scenario. cbn [fst snd log_after engine_after path_after].
    destruct (load_test_case (LoadScenarioRequest.scenario_path req));
      reflexivity.
  - by destruct state.
  - by destruct state.
Qed.

Lemma run_foldl (steps : list (App.Request * Datetime.t)) state :
  App.run steps state = foldl state_after state steps.
Proof.
  revert state. induction steps as [|[request now] steps IH]; intros state;
    [reflexivity|].
  cbn [App.run foldl]. by rewrite app_state, IH.
Qed.

(** X1: the harness is the transition system of [state_after]: after any
    run of requests the log, the engine and the stored path are those
    obtained by folding the three component functions over the run.  So a
    device call appends one record with exactly its parameters, [reset]
    empties the log, a load stores the path and, when the loader returns,
    the engine, and no other request changes anything. *)
Theorem run_state_after (steps : list (App.Request * Datetime.t)) state :
  App.run steps state = foldl state_after state steps
  /\ MockAgentState.commands (App.run steps state)
     = foldl (fun log step => log_after log step.1 step.2)
         (MockAgentState.commands state) steps
  /\ MockAgentState.state_machine (App.run steps state)
     = foldl (fun engine step => engine_after engine step.1)
         (MockAgentState.state_machine state) steps
  /\ MockAgentState.scenario_path (App.run steps state)
     = foldl (fun path step => path_after path step.1)
         (MockAgentState.scenario_path state) steps.
Proof.
  split; [apply run_foldl|]. rewrite run_foldl.
  revert state. induction steps as [|step steps IH]; intros state;
    [by repeat split|].
  cbn [foldl]. destruct (IH (state_after state step)) as (Hlog & Hsm & Hpath).
  rewrite Hlog, Hsm, Hpath. by repeat split.
Qed.




Lemma of_device_app device_id (log1 log2 : list CommandRecord.t) :
  of_device device_id (log1 ++ log2)
  = of_device device_id log1 ++ of_device device_id log2.
Proof. apply filter_app. Qed.

Lemma device_log_step device_id state step :
  of_device device_id (MockAgentState.commands (state_after state step))
  = device_log_after device_id
      (of_device device_id (MockAgentState.commands state)) step.
Proof.
  destruct step as [request now].
  unfold state_after, device_log_after. cbn [MockAgentState.commands fst snd].
  destruct request as [|d call| | | |req| |]; try reflexivity.
  cbn [log_after]. rewrite of_device_app. unfold of_device at 2.
  rewrite filter_cons, filter_nil. cbn [appended CommandRecord.device_id].
  repeat case_decide; try done. by rewrite app_nil_r.
Qed.

Lemma state_after_retarget device_id s1 s2 step :
  same_but_ids s1 s2 ->
  same_but_ids (state_after s1 (retarget device_id step)) (state_after s2 step).
Proof.
  intros [Hengine Hactions]. unfold same_but_ids, Routes.actual_actions in *.
  destruct step as [request now].
  destruct request as [|d call| | | |req| |];
    cbn [retarget state_after fst snd log_after MockAgentState.commands
         MockAgentState.state_machine];
    rewrite ?map_app, ?Hengine, ?Hactions; split; reflexivity.
Qed.

Lemma run_retarget device_id steps s1 s2 :
  same_but_ids s1 s2 ->
  same_but_ids (foldl state_after s1 (map (retarget device_id) steps))
               (foldl state_after s2 steps).
Proof.
  revert s1 s2. induction steps as [|step steps IH]; intros s1 s2 Hsame;
    [exact Hsame|].
  cbn [map foldl]. apply IH. by apply state_after_retarget.
Qed.

(** X3: all device ids share one log and one engine.  The records of one
    device id, after any run, are those of the calls addressed to it since
    the last reset, in order, whatever was sent to other ids in between;
    and the engine and the recorded action names after a run are the same
    when every call is sent to another device id instead. *)
Theorem device_ids_share_state
    (device_id : string) (steps : list (App.Request * Datetime.t)) state :
  of_device device_id (MockAgentState.commands (App.run steps state))
  = foldl (device_log_after device_id)
      (of_device device_id (MockAgentState.commands state)) steps
  /\ MockAgentState.state_machine (App.run (map (retarget device_id) steps) state)
     = MockAgentState.state_machine (App.run steps state)
  /\ Routes.actual_actions (App.run (map (retarget device_id) steps) state)
     = Routes.actual_actions (App.run steps state).
Proof.
  rewrite !run_foldl. split; [|split].
  - revert state. induction steps as [|step steps IH]; intros state;
      [reflexivity|].
    cbn [foldl]. by rewrite IH, device_log_step.
  - by apply (run_retarget device_id steps state state).
  - by apply (run_retarget device_id steps state state).
Qed.

(** X4: when the loader returns, the [load_scenario] route answers with
    status 200, the path and the state ids of the loaded engine (none when
    the loader gave no engine); the engine of the harness is the loaded one,
    the path is stored, and the command log is kept as it was: loading a
    scenario does not reset the recorder. *)
Theorem load_scenario_success req (loaded : option E) now state :
  load_test_case (LoadScenarioRequest.scenario_path req) = Return loaded ->
  let '(response, state') := App.app (App.PostTestLoadScenario req) now state in
  response
  = App.mk_response 200
      (VDict (<["status" := VStr "loaded"]>
              (<["scenario" := VStr (LoadScenarioRequest.scenario_path req)]>
               (<["states" :=
                    VList (map VStr (from_option states_keys [] loaded))]> ∅))))
  /\ MockAgentState.state_machine state' = loaded
  /\ MockAgentState.scenario_path state'
     = Some (LoadScenarioRequest.scenario_path req)
  /\ MockAgentState.commands state' = MockAgentState.commands state.
Proof.
  intros Hload. unfold App.app, Routes.load_scenario,
    MockAgentState.load_scenario. rewrite Hload.
  cbn [MockAgentState.state_machine MockAgentState.commands
       MockAgentState.scenario_path].
  rewrite respond_encodable by (destruct loaded; encodable_body).
  destruct loaded; repeat split.
Qed.

(** X5: with a scenario loaded, [screenshot] answers the current screenshot
    of the engine, never marked sensitive, [current_app] the app of its
    current state, and [get_state] its current state id and its history;
    each answer has status 200. *)
Theorem answers_with_scenario device_id req now state (sm : E) :
  MockAgentState.state_machine state = Some sm ->
  (App.app (App.Device device_id (App.Screenshot req)) now state).1
  = App.mk_response 200
      (VDict
         (<["base64_data" :=
              VStr (ScreenshotResult.base64_data (get_current_screenshot sm))]>
          (<["width" :=
               VInt (ScreenshotResult.width (get_current_screenshot sm))]>
           (<["height" :=
                VInt (ScreenshotResult.height (get_current_screenshot sm))]>
            (<["is_sensitive" := VBool false]> ∅)))))
  /\ (App.app (App.Device device_id App.CurrentApp) now state).1
     = App.mk_response 200
         (VDict {[ "app_name" := VStr (current_state_current_app sm) ]})
  /\ (App.app App.GetTestState now state).1
     = App.mk_response 200
         (VDict (<["current_state" := VStr (current_state_id sm)]>
                 (<["history" := VList (map VStr (state_history sm))]> ∅))).
Proof.
  intros Hsm. destruct state as [log engine path]. cbn in Hsm. subst engine.
  split; [reflexivity|]. split; [reflexivity|].
  cbn [App.app fst].
  by rewrite respond_encodable by apply get_state_encodable.
Qed.

Lemma delete_action_simplified (c : CommandRecord.t) :
  CommandRecord.params c !! "action" = None ->
  delete "action" (simplified c) = CommandRecord.params c.
Proof.
  intros Hnone. apply map_eq. intros key. unfold simplified.
  destruct (decide (key = "action")) as [->|Hne].
  - by rewrite lookup_delete_eq, Hnone.
  - rewrite lookup_delete_ne by done.
    destruct (CommandRecord.params c !! key) as [v|] eqn:Hkey.
    + by rewrite (lookup_union_Some_l _ _ _ v).
    + rewrite lookup_union_r by exact Hkey. by rewrite lookup_singleton_ne.
Qed.

(** X6: the simplified list of [get_command_actions] loses nothing of the
    log of the harness: entry by entry, in order, it holds the action of
    the record under the key [action] and, that key removed, exactly the
    parameters of the record, the ones [get_commands] shows under
    [params].  In a record with a parameter named [action] (the harness
    writes none) the parameter would take the place of the action. *)
Theorem command_actions_round_trip state :
  App.reachable state ->
  Forall2 (fun c entry =>
             entry !! "action" = Some (VStr (CommandRecord.action c))
             /\ delete "action" entry = CommandRecord.params c)
          (MockAgentState.commands state) (Routes.get_command_actions state)
  /\ Forall2 (fun full entry =>
                full !! "params" = Some (VDict (delete "action" entry))
                /\ full !! "action" = entry !! "action")
             (Routes.get_commands state) (Routes.get_command_actions state)
  /\ (forall (c : CommandRecord.t) v,
        CommandRecord.params c !! "action" = Some v ->
        simplified c !! "action" = Some v).
Proof.
  intros Hreach. apply reachable_log_ok in Hreach.
  unfold Routes.get_command_actions, Routes.get_commands.
  change (map _ (MockAgentState.commands state))
    with (simplified <$> MockAgentState.commands state) at 1 3.
  change (map CommandRecord.to_dict (MockAgentState.commands state))
    with (CommandRecord.to_dict <$> MockAgentState.commands state).
  assert (forall c, record_ok c ->
            simplified c !! "action" = Some (VStr (CommandRecord.action c)))
    as Haction.
  { intros c [Hnone _]. unfold simplified.
    rewrite lookup_union_r by exact Hnone. by rewrite lookup_singleton_eq. }
  split; [|split].
  - apply Forall2_fmap_r, Forall_Forall2_diag.
    eapply Forall_impl; [exact Hreach|]. intros c Hc. cbn. split.
    + by apply Haction.
    + apply delete_action_simplified, Hc.
  - apply Forall2_fmap, Forall_Forall2_diag.
    eapply Forall_impl; [exact Hreach|]. intros c Hc. cbn. split.
    + rewrite delete_action_simplified by apply Hc. reflexivity.
    + rewrite Haction by exact Hc. reflexivity.
  - intros c v Hv. unfold simplified. by rewrite (lookup_union_Some_l _ _ _ v).
Qed.

(** ** The action names of the log *)

Lemma recorded_action_clean call : clean_name (recorded_action call) = true.
Proof. destruct call; reflexivity. Qed.

Lemma clean_name_spec (w : string) :
  clean_name w = true ->
  w <> EmptyString /\ Str.contains "," w = false /\ Str.strip w = w.
Proof.
  unfold clean_name. intros Hclean.
  apply andb_prop in Hclean as [Hclean Hstrip].
  apply andb_prop in Hclean as [Hne Hcomma].
  split; [|split].
  - intros ->. discriminate.
  - by apply negb_true_iff.
  - by apply String.eqb_eq.
Qed.

(** Every record of a reachable state carries a clean action name. *)
Lemma reachable_actions_clean state :
  App.reachable state ->
  Forall (fun c => clean_name (CommandRecord.action c) = true)
         (MockAgentState.commands state).
Proof.
  induction 1 as [|scenario_path state _ IH|request now state _ IH].
  - constructor.
  - destruct scenario_path as [path|]; cbn; [|exact IH].
    destruct (String.eqb path ""); [exact IH|].
    by rewrite load_scenario_commands.
  - rewrite app_state. cbn [state_after MockAgentState.commands fst snd].
    destruct request; cbn [log_after]; try exact IH; [|constructor].
    apply Forall_app. split; [exact IH|].
    apply Forall_singleton. apply recorded_action_clean.
Qed.

Lemma clean_names_join (l : list string) :
  l <> [] -> Forall (fun w => clean_name w = true) l ->
  Routes.expected_actions (Str.join "," l) = l.
Proof.
  intros Hne Hl. apply expected_actions_join; [exact Hne|].
  eapply Forall_impl; [exact Hl|]. intros w Hw.
  by destruct (clean_name_spec w Hw) as (_ & ? & ?).
Qed.

(** X7: the log of the harness reads back through [expect]: in a reachable
    state, the client's [expect] on the very list of recorded action names
    reports a match exactly when the log is not empty.  (On an empty log
    the list is empty, its query is the empty string, and the route expects
    one empty name.) *)
Theorem expect_own_log state :
  App.reachable state ->
  exists body matched,
    MockAgentTestClient.expect (Routes.actual_actions state) state = VDict body
    /\ body !! "match" = Some (VBool matched)
    /\ (matched = true <-> MockAgentState.commands state <> []).
Proof.
  intros Hreach. apply reachable_actions_clean in Hreach.
  unfold MockAgentTestClient.expect, Routes.expect_commands.
  eexists _, _. split; [reflexivity|]. split; [reflexivity|].
  rewrite bool_decide_eq_true.
  destruct (MockAgentState.commands state) as [|c log] eqn:Hlog.
  - unfold Routes.actual_actions. rewrite Hlog. cbn. split; [discriminate|done].
  - split; [discriminate|]. intros _. symmetry. apply clean_names_join.
    + unfold Routes.actual_actions. rewrite Hlog. discriminate.
    + unfold Routes.actual_actions. apply Forall_map.
      rewrite Hlog. exact Hreach.
Qed.

(** What [assert_actions] does, from what the route compares. *)
Lemma assert_actions_result (float_repr : float -> string)
    (expected : list string) state :
  MockAgentTestClient.assert_actions float_repr expected state
  = if bool_decide (Routes.actual_actions state
                    = Routes.expected_actions (Str.join "," expected))
    then Return tt
    else Raise (Exception "AssertionError"
                  ("Mismatch: expected "
                   +:+ Str.repr_list
                         (Routes.expected_actions (Str.join "," expected))
                   +:+ ", got " +:+ Str.repr_list (Routes.actual_actions state))).
Proof.
  unfold MockAgentTestClient.assert_actions, MockAgentTestClient.expect,
    Routes.expect_commands.
  destruct (bool_decide _); reflexivity.
Qed.

(** X8: for a list of names that is not empty, none of which holds a comma
    or has whitespace at an end, [assert_actions] returns exactly when the
    recorded action names, in order, are the list; otherwise it raises an
    [AssertionError] whose message is the mismatch message of the route,
    with the texts of both lists. *)
Theorem assert_actions_spec (float_repr : float -> string)
    (expected : list string) state :
  expected <> [] ->
  Forall (fun w => Str.contains "," w = false /\ Str.strip w = w) expected ->
  let result := MockAgentTestClient.assert_actions float_repr expected state in
  (result = Return tt <-> Routes.actual_actions state = expected)
  /\ (Routes.actual_actions state <> expected ->
      result
      = Raise (Exception "AssertionError"
                 ("Mismatch: expected " +:+ Str.repr_list expected
                  +:+ ", got " +:+ Str.repr_list (Routes.actual_actions state)))).
Proof.
  intros Hne Hclean. cbn zeta. rewrite assert_actions_result.
  rewrite expected_actions_join by done.
  case_bool_decide as Heq; split; try done.
Qed.

(** X9: the empty list cannot be asserted.  [assert_actions([])] raises an
    [AssertionError] in every reachable state, the empty log included; and
    on an empty log [assert_actions] raises it for every list. *)
Theorem assert_actions_empty (float_repr : float -> string) state :
  App.reachable state ->
  is_assertion_failure (MockAgentTestClient.assert_actions float_repr [] state)
  /\ (MockAgentState.commands state = [] ->
      forall expected,
        is_assertion_failure
          (MockAgentTestClient.assert_actions float_repr expected state)).
Proof.
  intros Hreach. apply reachable_actions_clean in Hreach. split.
  - rewrite assert_actions_result. case_bool_decide as Heq; [|by eexists].
    exfalso. change (Routes.expected_actions (Str.join "," [])) with [""] in Heq.
    unfold Routes.actual_actions in Heq.
    destruct (MockAgentState.commands state) as [|c log]; [discriminate|].
    inversion Hreach as [|? ? Hc _]; subst.
    injection Heq as Hempty _.
    destruct (clean_name_spec _ Hc) as [Hne _]. by apply Hne.
  - intros Hempty expected. rewrite assert_actions_result.
    case_bool_decide as Heq; [|by eexists].
    exfalso. unfold Routes.actual_actions, Routes.expected_actions in Heq.
    rewrite Hempty in Heq. symmetry in Heq.
    apply map_eq_nil in Heq. by apply split_not_nil in Heq.
Qed.

(** X10: [assert_state] returns exactly when a scenario is loaded and the
    current state id of the engine is the expected one.  With no scenario
    loaded it raises an [AssertionError] that names the state [None]; with
    another current state, one that names that state; it raises no other
    error. *)
Theorem assert_state_spec (float_repr : float -> string)
    (expected_state : string) state :
  let result :=
    MockAgentTestClient.assert_state float_repr expected_state state in
  (result = Return tt <->
     current_state_id <$> MockAgentState.state_machine state
     = Some expected_state)
  /\ (MockAgentState.state_machine state = None ->
      result
      = Raise (Exception "AssertionError"
                 ("Expected state '" +:+ expected_state +:+ "', got 'None'")))
  /\ (forall sm, MockAgentState.state_machine state = Some sm ->
        current_state_id sm <> expected_state ->
        result
        = Raise (Exception "AssertionError"
                   ("Expected state '" +:+ expected_state +:+ "', got '"
                    +:+ current_state_id sm +:+ "'"))).
Proof.
  destruct state as [log [sm|] path]; cbn zeta;
    unfold MockAgentTestClient.assert_state, MockAgentTestClient.get_state,
      Routes.get_state; cbn [MockAgentState.state_machine].
  - change (Py.subscript (VDict _) "current_state")
      with (@Return pyval (VStr (current_state_id sm))).
    cbn [mbind outcome_bind Py.eq_str Py.text fmap option_fmap option_map].
    destruct (String.eqb_spec (current_state_id sm) expected_state) as [Heq|Hne].
    + split; [split; [by rewrite Heq|done]|]. split; [done|].
      intros ? [= <-] Hne. done.
    + split; [split; [done|by intros [= ?]]|]. split; [done|].
      by intros ? [= <-] _.
  - change (Py.subscript (VDict _) "current_state")
      with (@Return pyval VNone).
    cbn [mbind outcome_bind Py.eq_str Py.text fmap option_fmap option_map].
    split; [split; done|]. split; [done|]. by intros ? [=].
Qed.

(** X12: the client's [load_scenario] raises an [HTTPStatusError] exactly
    when the loader raises, for the 400 answer of the route; when the
    loader returns it gives back the body of the route, with the status
    [loaded].  Either way the harness is left as the route leaves it. *)
Theorem client_load_scenario
    (status_error_text : App.Response -> string) (path : string) state :
  let '(result, state') :=
    MockAgentTestClient.load_scenario status_error_text path state in
  state' = (Routes.load_scenario (LoadScenarioRequest.mk path) state).2
  /\ match load_test_case path with
     | Return _ =>
         exists body, result = Return (VDict body)
           /\ body !! "status" = Some (VStr "loaded")
           /\ body !! "scenario" = Some (VStr path)
     | Raise e =>
         result
         = Raise (Exception "HTTPStatusError"
                    (status_error_text
                       (App.mk_response 400
                          (VDict {[ "detail" :=
                                      VStr ("Failed to load scenario: "
                                            +:+ exn_str e) ]}))))
     end.
Proof.
  unfold MockAgentTestClient.load_scenario, Routes.load_scenario,
    MockAgentState.load_scenario. cbn [LoadScenarioRequest.scenario_path].
  destruct (load_test_case path) as [loaded|e].
  - cbn [MockAgentState.state_machine].
    rewrite respond_encodable by (destruct loaded; encodable_body).
    split; [reflexivity|]. by eexists.
  - split; reflexivity.
Qed.


(** X17: once a recorded parameter is an infinity or not-a-number, the
    two listings are answered with the internal server error, the client's
    [get_commands] and [get_actions] raise the error of the JSON decoder,
    and so does [assert_tap_in_region], for every index and rectangle,
    until the log is reset. *)
Theorem listings_fail_on_non_finite (float_repr : float -> string)
    (x1 y1 x2 y2 n : Z) now state :
  finite_log state = false ->
  let decode_error :=
    Exception "JSONDecodeError" "Expecting value: line 1 column 1 (char 0)" in
  (App.app App.GetTestCommands now state).1
  = App.mk_response 500 (VStr "Internal Server Error")
  /\ (App.app App.GetTestCommandsActions now state).1
     = App.mk_response 500 (VStr "Internal Server Error")
  /\ MockAgentTestClient.get_commands state = Raise decode_error
  /\ MockAgentTestClient.get_actions state = Raise decode_error
  /\ MockAgentTestClient.assert_tap_in_region float_repr x1 y1 x2 y2 n state
     = Raise decode_error
  /\ finite_log (App.app App.PostTestReset now state).2 = true.
Proof.
  intros Hfinite. cbn zeta. cbn [App.app fst].
  rewrite !respond_not_encodable
    by (by rewrite ?get_commands_encodable, ?get_command_actions_encodable).
  split; [reflexivity|]. split; [reflexivity|].
  split; [by apply get_commands_non_finite|].
  split; [by apply get_actions_non_finite|].
  split; [|reflexivity].
  unfold MockAgentTestClient.assert_tap_in_region.
  by rewrite get_actions_non_finite.
Qed.

(** ** The query of [expect], piece by piece *)

Lemma split_app_sep_any sep w rest :
  Str.split sep (w +:+ String sep rest)
  = Str.split sep w ++ Str.split sep rest.
Proof.
  induction w as [|c w IH].
  - change (Str.split sep (String sep rest) = [EmptyString] ++ Str.split sep rest).
    cbn [Str.split]. by rewrite Ascii.eqb_refl.
  - change (Str.split sep (String c (w +:+ String sep rest))
            = Str.split sep (String c w) ++ Str.split sep rest).
    cbn [Str.split]. rewrite IH.
    pose proof (split_not_nil sep w) as Hnil.
    destruct (Ascii.eqb c sep); [reflexivity|].
    destruct (Str.split sep w) as [|h t]; [done|reflexivity].
Qed.

Lemma split_join_concat sep (l : list string) :
  l <> [] ->
  Str.split sep (Str.join (String sep EmptyString) l)
  = concat (map (Str.split sep) l).
Proof.
  intros Hne. induction l as [|w l IH]; [done|].
  destruct l as [|w' l].
  - cbn. by rewrite app_nil_r.
  - change (Str.join (String sep EmptyString) (w :: w' :: l))
      with (w +:+ String sep (Str.join (String sep EmptyString) (w' :: l))).
    rewrite split_app_sep_any, IH by done. reflexivity.
Qed.

Lemma expected_actions_join_concat (l : list string) :
  l <> [] ->
  Routes.expected_actions (Str.join "," l)
  = concat (map Routes.expected_actions l).
Proof.
  intros Hne. unfold Routes.expected_actions.
  rewrite split_join_concat by exact Hne.
  rewrite concat_map, map_map. reflexivity.
Qed.

Lemma contains_app c (a b : string) :
  Str.contains c (a +:+ b) = Str.contains c a || Str.contains c b.
Proof.
  unfold Str.contains. induction a as [|c' a IH]; [reflexivity|].
  change (String c' a +:+ b) with (String c' (a +:+ b)).
  cbn [list_ascii_of_string existsb]. by rewrite IH, orb_assoc.
Qed.

Lemma all_space_no_comma (s : string) :
  all_space s = true -> Str.contains "," s = false.
Proof.
  unfold Str.contains. induction s as [|c s IH]; [done|].
  cbn [all_space list_ascii_of_string existsb]. intros Hs.
  apply andb_prop in Hs as [Hc Hs]. rewrite IH by exact Hs.
  destruct (Ascii.eqb_spec "," c) as [<-|_]; [discriminate Hc|reflexivity].
Qed.

Lemma lstrip_all_space (l s : string) :
  all_space l = true -> Str.lstrip (l +:+ s) = Str.lstrip s.
Proof.
  induction l as [|c l IH]; [done|]. cbn [all_space]. intros Hl.
  apply andb_prop in Hl as [Hc Hl].
  change (String c l +:+ s) with (String c (l +:+ s)).
  cbn [Str.lstrip]. rewrite Hc. by apply IH.
Qed.

Lemma lstrip_only_space (s : string) :
  all_space s = true -> Str.lstrip s = EmptyString.
Proof.
  induction s as [|c s IH]; [done|]. cbn [all_space Str.lstrip]. intros Hs.
  apply andb_prop in Hs as [Hc Hs]. rewrite Hc. by apply IH.
Qed.

Lemma rstrip_all_space (s r : string) :
  all_space r = true -> Str.rstrip (s +:+ r) = Str.rstrip s.
Proof.
  intros Hr. induction s as [|c s IH].
  - change (Str.rstrip r = EmptyString).
    induction r as [|c r IHr]; [done|]. cbn [all_space] in Hr.
    apply andb_prop in Hr as [Hc Hr]. cbn [Str.rstrip].
    by rewrite IHr, Hc.
  - change (String c s +:+ r) with (String c (s +:+ r)).
    cbn [Str.rstrip]. by rewrite IH.
Qed.

Lemma rstrip_trimmed (s : string) :
  (forall c, last_char s = Some c -> Str.isspace c = false) ->
  Str.rstrip s = s.
Proof.
  induction s as [|c s IH]; [done|]. intros Hlast.
  cbn [Str.rstrip]. destruct s as [|c' s].
  - cbn. by rewrite (Hlast c).
  - rewrite IH by exact Hlast. reflexivity.
Qed.

Lemma strip_padded (l w r : string) :
  all_space l = true -> all_space r = true -> trimmed w ->
  Str.strip (l +:+ w +:+ r) = w.
Proof.
  intros Hl Hr [Hfirst Hlast]. unfold Str.strip.
  rewrite lstrip_all_space by exact Hl.
  destruct w as [|c w].
  - change (Str.rstrip (Str.lstrip r) = EmptyString).
    by rewrite lstrip_only_space.
  - change (String c w +:+ r) with (String c (w +:+ r)).
    cbn [Str.lstrip]. rewrite (Hfirst c) by done.
    change (String c (w +:+ r)) with (String c w +:+ r).
    rewrite rstrip_all_space by exact Hr. by apply rstrip_trimmed.
Qed.

(** X15: the query of [expect] is read piece by piece: for a list of names
    that is not empty, the expected list of the joined query is the
    concatenation of the expected lists of the names, each read as a query
    of its own.  So a name that holds commas counts as several names, and a
    clean name as itself. *)
Theorem expected_actions_of_join (names : list string) :
  names <> [] ->
  Routes.expected_actions (Str.join "," names)
  = concat (map Routes.expected_actions names).
Proof. apply expected_actions_join_concat. Qed.

(** X16: whitespace around the names of the query is ignored: when every
    piece is a name without commas and without whitespace at its ends,
    wrapped in whitespace on either side, the expected list of the query
    is the list of the names. *)
Theorem expected_actions_padded (pieces : list (string * string * string)) :
  pieces <> [] ->
  Forall (fun '(l, w, r) =>
            all_space l = true /\ all_space r = true
            /\ Str.contains "," w = false /\ trimmed w) pieces ->
  Routes.expected_actions
    (Str.join "," (map (fun '(l, w, r) => l +:+ w +:+ r) pieces))
  = map (fun '(l, w, r) => w) pieces.
Proof.
  intros Hne Hpieces.
  rewrite expected_actions_join_concat by (by destruct pieces).
  rewrite map_map. clear Hne.
  induction Hpieces as [|[[l w] r] pieces (Hl & Hr & Hw & Htrim) _ IH];
    [reflexivity|].
  cbn [map concat]. rewrite IH. unfold Routes.expected_actions at 1.
  rewrite split_no_sep_id.
  - cbn [map app]. by rewrite strip_padded.
  - rewrite !contains_app, Hw, !all_space_no_comma by done. reflexivity.
Qed.

(** ** The base URL of the client *)

Lemma rstrip_chars_spec chars s :
  exists r, s = Str.rstrip_chars chars s +:+ r
    /\ all_chars_in chars r = true
    /\ forall c, last_char (Str.rstrip_chars chars s) = Some c ->
                 Str.contains c chars = false.
Proof.
  induction s as [|c s (r & Heq & Hr & Hlast)].
  - exists EmptyString. by repeat split.
  - cbn [Str.rstrip_chars].
    destruct (Str.rstrip_chars chars s) as [|c' t] eqn:Ht.
    + change (s = r) in Heq. subst r. destruct (Str.contains c chars) eqn:Hc.
      * exists (String c s). repeat split; try done.
        cbn [all_chars_in]. by rewrite Hc, Hr.
      * exists s. repeat split; try done. cbn. by intros ? [= <-].
    + exists r. split; [|split; [done|]].
      * change (String c s = String c (String c' t +:+ r)). by rewrite <- Heq.
      * intros c0 Hc0. apply Hlast. exact Hc0.
Qed.

Lemma rstrip_chars_id chars s :
  (forall c, last_char s = Some c -> Str.contains c chars = false) ->
  Str.rstrip_chars chars s = s.
Proof.
  induction s as [|c s IH]; [done|]. intros Hlast.
  cbn [Str.rstrip_chars]. destruct s as [|c' s].
  - cbn. by rewrite (Hlast c).
  - rewrite IH by exact Hlast. reflexivity.
Qed.

(** X13: the client keeps its base URL without the slashes at its end: the
    given URL is the kept one followed by slashes only, the kept one does
    not end with a slash, and a URL that does not end with a slash is kept
    as it is (so normalising twice changes nothing). *)
Theorem init_base_url (base_url : string) (timeout : float) :
  let kept :=
    MockAgentTestClient.base_url (MockAgentTestClient.init base_url timeout) in
  (exists slashes, base_url = kept +:+ slashes
                   /\ all_chars_in "/" slashes = true)
  /\ last_char kept <> Some "/"%char
  /\ MockAgentTestClient.init kept timeout
     = MockAgentTestClient.init base_url timeout
  /\ (last_char base_url <> Some "/"%char -> kept = base_url).
Proof.
  cbn zeta. unfold MockAgentTestClient.init. cbn [MockAgentTestClient.base_url].
  destruct (rstrip_chars_spec "/" base_url) as (r & Heq & Hr & Hlast).
  assert (forall s, last_char s <> Some "/"%char ->
            forall c, last_char s = Some c -> Str.contains c "/" = false)
    as Hslash.
  { intros s Hs c Hc. unfold Str.contains. cbn.
    destruct (Ascii.eqb_spec c "/") as [->|_]; [done|reflexivity]. }
  assert (last_char (Str.rstrip_chars "/" base_url) <> Some "/"%char) as Hkept.
  { intros Hc. by specialize (Hlast _ Hc). }
  split; [by exists r|]. split; [exact Hkept|]. split.
  - f_equal. apply rstrip_chars_id. by apply Hslash.
  - intros Hno. apply rstrip_chars_id. by apply Hslash.
Qed.

(** ** [pick_device_id] *)

(** X14: [pick_device_id] gives back a given id that is not empty, without
    looking at the devices.  With no id, or an empty one, it gives the id of
    the first listed device whose status is [device], every device listed
    before it having another status, and nothing exactly when no listed
    device has that status. *)
Theorem pick_device_id_spec (devices : list AdbDirectDemo.DeviceInfo)
    (device_id : option string) :
  let picked := AdbDirectDemo.pick_device_id devices device_id in
  (forall d, device_id = Some d -> d <> EmptyString -> picked = Some d)
  /\ (device_id = None \/ device_id = Some EmptyString ->
      (picked = None <->
         Forall (fun d => AdbDirectDemo.status d <> "device") devices)
      /\ (forall id, picked = Some id ->
            exists before d after,
              devices = before ++ d :: after
              /\ AdbDirectDemo.device_id d = id
              /\ AdbDirectDemo.status d = "device"
              /\ Forall (fun d' => AdbDirectDemo.status d' <> "device")
                        before)).
Proof.
  cbn zeta. split.
  - intros d -> Hd. unfold AdbDirectDemo.pick_device_id.
    destruct (String.eqb_spec d ""); done.
  - intros Hnone.
    assert (AdbDirectDemo.pick_device_id devices device_id
            = AdbDirectDemo.device_id
                <$> find (fun d => String.eqb (AdbDirectDemo.status d) "device")
                         devices) as ->.
    { unfold AdbDirectDemo.pick_device_id.
      destruct Hnone as [->| ->]; cbn; by destruct (find _ devices). }
    induction devices as [|d devices [IHnone IHsome]].
    + cbn. split; [done|]. intros ? [=].
    + cbn [find]. destruct (String.eqb_spec (AdbDirectDemo.status d) "device")
        as [Hd|Hd].
      * cbn. split.
        -- split; [done|]. intros Hall. inversion Hall; subst. done.
        -- intros id [= <-]. exists [], d, devices. by repeat split.
      * split.
        -- rewrite IHnone. split; [by constructor|].
           intros Hall. by inversion Hall.
        -- intros id Hid. destruct (IHsome id Hid)
             as (before & d' & after & -> & Hid' & Hst & Hbefore).
           exists (d :: before), d', after. repeat split; try done.
           by constructor.
Qed.

End MoreProperties.

(** * The scenario of section 8 and the claims at concrete inputs *)

Example loaded_state :
  Routes.get_state loaded
  = VDict (<["current_state" := VStr "home"]>
           (<["history" := VList [VStr "home"]]> ∅)).
Proof. reflexivity. Qed.

Example tapped_state :
  Routes.get_state tapped
  = VDict (<["current_state" := VStr "message"]>
           (<["history" := VList [VStr "home"; VStr "message"]]> ∅)).
Proof. reflexivity. Qed.

Example tapped_expect :
  exists body, Routes.expect_commands "tap" tapped = VDict body
    /\ body !! "match" = Some (VBool true).
Proof. by eexists. Qed.

Example tapped_in_region :
  MockAgentTestClient.assert_tap_in_region (fun _ => "")
    487 2516 721 2667 0 tapped = Return tt.
Proof. reflexivity. Qed.

(** C1, the claim as worded fails for [current_app]: the record it appends
    has the action [get_current_app], not the verb. *)
Lemma current_app_recorded_as_get_current_app :
  MockAgentState.commands
    (App.device "mock_001" App.CurrentApp noon fresh).2
  = [CommandRecord.mk "get_current_app" "mock_001" ∅ noon]
  /\ ~ records_verb "mock_001" App.CurrentApp noon fresh.
Proof.
  split; [reflexivity|].
  intros [params Hlog]. cbn in Hlog. discriminate Hlog.
Qed.

(** C3 at a concrete input: a missing scenario file after the scenario of
    section 8 was loaded and tapped. *)
Lemma load_scenario_failure_keeps_engine_witness :
  load_test_case "missing.yaml"
  = Raise (Exception "ScenarioError" "cannot read missing.yaml")
  /\ (let '(response, state') :=
        App.app (App.PostTestLoadScenario (LoadScenarioRequest.mk "missing.yaml"))
          noon tapped in
      response
      = App.mk_response 400
          (VDict {[ "detail" :=
                      VStr ("Failed to load scenario: "
                            +:+ exn_str (Exception "ScenarioError"
                                           "cannot read missing.yaml")) ]})
      /\ MockAgentState.state_machine state'
         = MockAgentState.state_machine tapped
      /\ MockAgentState.commands state' = MockAgentState.commands tapped).
Proof.
  split; [reflexivity|].
  apply (load_scenario_failure_keeps_engine
           (LoadScenarioRequest.mk "missing.yaml")
           (Exception "ScenarioError" "cannot read missing.yaml") noon tapped).
  reflexivity.
Defined.

(** C10 at the same input: the stored path is the one that failed. *)
Lemma load_scenario_failure_overwrites_path_witness :
  load_test_case "missing.yaml"
  = Raise (Exception "ScenarioError" "cannot read missing.yaml")
  /\ MockAgentState.scenario_path tapped
     = Some SimulationEngine.scenario_yaml
  /\ (let '(result, state') :=
        MockAgentState.load_scenario "missing.yaml" tapped in
      let state'' :=
        (App.app (App.PostTestLoadScenario (LoadScenarioRequest.mk "missing.yaml"))
           noon tapped).2 in
      result = Raise (Exception "ScenarioError" "cannot read missing.yaml")
      /\ MockAgentState.scenario_path state' = Some "missing.yaml"
      /\ MockAgentState.state_machine state'
         = MockAgentState.state_machine tapped
      /\ MockAgentState.scenario_path state'' = Some "missing.yaml"
      /\ MockAgentState.state_machine state''
         = MockAgentState.state_machine tapped).
Proof.
  split; [reflexivity|]. split; [reflexivity|].
  apply (load_scenario_failure_overwrites_path "missing.yaml"
           (Exception "ScenarioError" "cannot read missing.yaml") noon tapped).
  reflexivity.
Defined.

(** C6 at a concrete input: the module-level state, no scenario loaded. *)
Lemma placeholders_without_scenario_witness :
  MockAgentState.state_machine fresh = None
  /\ (App.app (App.Device "mock_001"
                 (App.Screenshot (ScreenshotRequest.mk 10))) noon fresh).1
     = App.mk_response 200
         (VDict (<["base64_data" := VStr ""]> (<["width" := VInt 1080]>
                 (<["height" := VInt 2400]>
                  (<["is_sensitive" := VBool false]> ∅)))))
  /\ (App.app (App.Device "mock_001" App.CurrentApp) noon fresh).1
     = App.mk_response 200 (VDict {[ "app_name" := VStr "com.mock.app" ]})
  /\ (App.app App.GetTestState noon fresh).1
     = App.mk_response 200
         (VDict (<["current_state" := VNone]> (<["history" := VList []]> ∅))).
Proof.
  split; [reflexivity|].
  apply (placeholders_without_scenario "mock_001" (ScreenshotRequest.mk 10)
           noon fresh).
  reflexivity.
Defined.

(** C2, the claim as worded fails for the empty list: on the empty log the
    recorded names are the expected list, and the answer reports no
    match. *)
Lemma expect_empty_list_reports_no_match :
  Routes.actual_actions fresh = []
  /\ (exists body,
        (App.app (App.GetTestExpect (Str.join "," [])) noon fresh).1
        = App.mk_response 200 (VDict body)
        /\ body !! "match" = Some (VBool false))
  /\ ~ expect_matches_list [] noon fresh.
Proof.
  split; [reflexivity|]. split.
  - eexists. split; [vm_compute; reflexivity|reflexivity].
  - intros (body & matched & Hbody & Hmatch & Hiff).
    vm_compute in Hbody. injection Hbody as <-.
    vm_compute in Hmatch. injection Hmatch as <-.
    destruct Hiff as [_ Hiff]. by specialize (Hiff eq_refl).
Qed.

(** C2 at a concrete input: the list [["tap"]] after the tap of
    section 8. *)
Lemma expect_commands_reports_witness :
  ["tap"] <> []
  /\ Forall (fun w => Str.contains "," w = false /\ Str.strip w = w) ["tap"]
  /\ expect_matches_list ["tap"] noon tapped.
Proof.
  assert (["tap"] <> @nil string) as Hne by discriminate.
  assert (Forall (fun w => Str.contains "," w = false /\ Str.strip w = w)
                 ["tap"]) as Hclean
    by (apply Forall_singleton; split; reflexivity).
  split; [exact Hne|]. split; [exact Hclean|].
  exact (proj1 (proj2 (expect_commands_reports ["tap"] noon tapped Hne Hclean))).
Defined.





(** The guard [len(taps) > index] of the helper misses the negative
    indices: with no tap recorded and index -1 the helper passes its first
    assertion and then raises [IndexError], which is neither a return nor
    an assertion failure. *)
Lemma assert_tap_in_region_negative_index :
  App.reachable fresh
  /\ MockAgentTestClient.assert_tap_in_region (fun _ => "") 0 0 10 10 (-1) fresh
     = Raise (Exception "IndexError" "list index out of range")
  /\ ~ tap_in_region_claim (fun _ => "") 0 0 10 10 (-1) fresh.
Proof.
  split; [constructor|]. split; [reflexivity|].
  intros (_ & _ & [Hret|[msg Hfail]]); discriminate.
Qed.

(** C9 at a concrete input: the empty query against the empty log. *)
Lemma expected_actions_never_empty_witness :
  MockAgentState.commands fresh = []
  /\ Routes.expected_actions "" = [""]
  /\ exists body,
       (App.app (App.GetTestExpect "") noon fresh).1
       = App.mk_response 200 (VDict body)
       /\ body !! "match" = Some (VBool false).
Proof.
  destruct (expected_actions_never_empty "" noon fresh)
    as (_ & _ & _ & _ & Hempty & _ & Hmatch).
  split; [reflexivity|]. split; [exact Hempty|]. apply Hmatch. reflexivity.
Defined.

(** * The further properties at concrete inputs *)

Lemma tapped_reachable : App.reachable tapped.
Proof. do 2 apply App.reachable_app. apply App.reachable_init. Defined.

(** The test of two devices: one tap each, one record each. *)
Example two_devices_one_record_each :
  let state :=
    App.run
      [(App.Device "device_1" (App.Tap (TapRequest.mk 100 200 None)), noon);
       (App.Device "device_2" (App.Tap (TapRequest.mk 300 400 None)), noon)]
      fresh in
  length (of_device "device_1" (MockAgentState.commands state)) = 1%nat
  /\ length (of_device "device_2" (MockAgentState.commands state)) = 1%nat.
Proof. split; reflexivity. Qed.

(** X4 at a concrete input: the scenario of section 8 loaded into the
    module-level state. *)
Lemma load_scenario_success_witness :
  load_test_case SimulationEngine.scenario_yaml
  = Return (Some (SimulationEngine.create SimulationEngine.meituan))
  /\ (let '(response, state') := App.app load_meituan noon fresh in
      response
      = App.mk_response 200
          (VDict (<["status" := VStr "loaded"]>
                  (<["scenario" := VStr SimulationEngine.scenario_yaml]>
                   (<["states" := VList [VStr "home"; VStr "message"]]> ∅))))
      /\ MockAgentState.state_machine state'
         = Some (SimulationEngine.create SimulationEngine.meituan)
      /\ MockAgentState.scenario_path state'
         = Some SimulationEngine.scenario_yaml
      /\ MockAgentState.commands state' = MockAgentState.commands fresh).
Proof.
  split; [reflexivity|].
  exact (load_scenario_success
           (LoadScenarioRequest.mk SimulationEngine.scenario_yaml)
           (Some (SimulationEngine.create SimulationEngine.meituan)) noon fresh
           eq_refl).
Defined.

(** X5 at a concrete input: the state after the tap of section 8. *)
Lemma answers_with_scenario_witness :
  let sm :=
    SimulationEngine.mk SimulationEngine.meituan "message" ["home"; "message"] in
  MockAgentState.state_machine tapped = Some sm
  /\ (App.app (App.Device "mock_001"
                 (App.Screenshot (ScreenshotRequest.mk 10))) noon tapped).1
     = App.mk_response 200
         (VDict (<["base64_data" := VStr "bWVzc2FnZQ=="]>
                 (<["width" := VInt 1080]> (<["height" := VInt 2400]>
                  (<["is_sensitive" := VBool false]> ∅)))))
  /\ (App.app (App.Device "mock_001" App.CurrentApp) noon tapped).1
     = App.mk_response 200
         (VDict {[ "app_name" := VStr "com.sankuai.meituan" ]})
  /\ (App.app App.GetTestState noon tapped).1
     = App.mk_response 200
         (VDict (<["current_state" := VStr "message"]>
                 (<["history" := VList [VStr "home"; VStr "message"]]> ∅))).
Proof.
  split; [reflexivity|].
  exact (answers_with_scenario "mock_001" (ScreenshotRequest.mk 10) noon tapped
           (SimulationEngine.mk SimulationEngine.meituan "message"
              ["home"; "message"]) eq_refl).
Defined.

(** X6 at a concrete input: the log after the tap of section 8. *)
Lemma command_actions_round_trip_witness :
  App.reachable tapped
  /\ Forall2 (fun c entry =>
                entry !! "action" = Some (VStr (CommandRecord.action c))
                /\ delete "action" entry = CommandRecord.params c)
             (MockAgentState.commands tapped)
             (Routes.get_command_actions tapped).
Proof.
  split; [exact tapped_reachable|].
  exact (proj1 (command_actions_round_trip tapped tapped_reachable)).
Defined.

(** X7 at a concrete input: the log of one tap matches [["tap"]]. *)
Lemma expect_own_log_witness :
  App.reachable tapped
  /\ Routes.actual_actions tapped = ["tap"]
  /\ exists body matched,
       MockAgentTestClient.expect ["tap"] tapped = VDict body
       /\ body !! "match" = Some (VBool matched)
       /\ (matched = true <-> MockAgentState.commands tapped <> []).
Proof.
  split; [exact tapped_reachable|]. split; [reflexivity|].
  exact (expect_own_log tapped tapped_reachable).
Defined.

(** X8 at a concrete input: asserting [["tap"]] after the tap. *)
Lemma assert_actions_spec_witness :
  ["tap"] <> []
  /\ Forall (fun w => Str.contains "," w = false /\ Str.strip w = w) ["tap"]
  /\ (MockAgentTestClient.assert_actions (fun _ => "") ["tap"] tapped
      = Return tt
      <-> Routes.actual_actions tapped = ["tap"]).
Proof.
  assert (["tap"] <> @nil string) as Hne by discriminate.
  assert (Forall (fun w => Str.contains "," w = false /\ Str.strip w = w)
                 ["tap"]) as Hclean
    by (apply Forall_singleton; split; reflexivity).
  split; [exact Hne|]. split; [exact Hclean|].
  exact (proj1 (assert_actions_spec (fun _ => "") ["tap"] tapped Hne Hclean)).
Defined.

(** X9 at a concrete input: the empty list against the empty log. *)
Lemma assert_actions_empty_witness :
  App.reachable fresh
  /\ is_assertion_failure
       (MockAgentTestClient.assert_actions (fun _ => "") [] fresh).
Proof.
  split; [apply App.reachable_init|].
  exact (proj1 (assert_actions_empty (fun _ => "") fresh
                  (App.reachable_init))).
Defined.


(** X17 at a concrete input: after the tap with an infinite delay. *)
Lemma listings_fail_on_non_finite_witness :
  finite_log tapped_with_infinite_delay = false
  /\ (App.app App.GetTestCommandsActions noon tapped_with_infinite_delay).1
     = App.mk_response 500 (VStr "Internal Server Error")
  /\ MockAgentTestClient.assert_tap_in_region (fun _ => "") 0 0 10 10 0
       tapped_with_infinite_delay
     = Raise (Exception "JSONDecodeError"
                "Expecting value: line 1 column 1 (char 0)").
Proof.
  assert (finite_log tapped_with_infinite_delay = false) as Hfinite
    by (vm_compute; reflexivity).
  destruct (listings_fail_on_non_finite (fun _ => "") 0 0 10 10 0 noon
              tapped_with_infinite_delay Hfinite)
    as (_ & Hactions & _ & _ & Hassert & _).
  split; [exact Hfinite|]. split; [exact Hactions|exact Hassert].
Defined.

Example tapped_from_end :
  MockAgentTestClient.assert_tap_in_region (fun _ => "")
    487 2516 721 2667 (-1) tapped = Return tt
  /\ MockAgentTestClient.assert_tap_in_region (fun _ => "")
       487 2516 721 2667 (-2) tapped
     = Raise (Exception "IndexError" "list index out of range").
Proof. split; reflexivity. Qed.

Example base_url_example :
  MockAgentTestClient.base_url
    (MockAgentTestClient.init "http://localhost:8001//" (Finite 30 0))
  = "http://localhost:8001".
Proof. reflexivity. Qed.

(** X15 at a concrete input: a name with a comma counts as two names. *)
Lemma expected_actions_of_join_witness :
  ["tap,swipe"; "back"] <> []
  /\ Routes.expected_actions (Str.join "," ["tap,swipe"; "back"])
     = concat (map Routes.expected_actions ["tap,swipe"; "back"])
  /\ concat (map Routes.expected_actions ["tap,swipe"; "back"])
     = ["tap"; "swipe"; "back"].
Proof.
  assert (["tap,swipe"; "back"] <> @nil string) as Hne by discriminate.
  split; [exact Hne|]. split; [|reflexivity].
  exact (expected_actions_of_join ["tap,swipe"; "back"] Hne).
Defined.

(** X16 at a concrete input: the query [" tap,swipe "]. *)
Lemma expected_actions_padded_witness :
  [(" ", "tap", ""); ("", "swipe", " ")] <> []
  /\ Str.join "," (map (fun '(l, w, r) => l +:+ w +:+ r)
                       [(" ", "tap", ""); ("", "swipe", " ")])
     = " tap,swipe "
  /\ Routes.expected_actions
       (Str.join "," (map (fun '(l, w, r) => l +:+ w +:+ r)
                          [(" ", "tap", ""); ("", "swipe", " ")]))
     = map (fun '(l, w, r) => w) [(" ", "tap", ""); ("", "swipe", " ")].
Proof.
  assert ([(" ", "tap", ""); ("", "swipe", " ")]
          <> @nil (string * string * string)) as Hne by discriminate.
  split; [exact Hne|]. split; [reflexivity|].
  apply (expected_actions_padded [(" ", "tap", ""); ("", "swipe", " ")] Hne).
  repeat constructor; cbn; intros c Hc; injection Hc as <-; reflexivity.
Defined.
